(** * FullOnCrypto-Nodejs: a shallow embedding of src/server.js

    The Express handlers of [src/server.js] are modelled as functions of a
    state/exception monad over a [world] that holds the three MongoDB
    collections ([users], [paymentRequests], [upiIndex]) in natural
    (insertion) order, the memoised connection flag of [connectToDatabase],
    the ObjectId generator, the wall clock read by [new Date()], and an
    oracle of store faults: every awaited MongoDB call pops one flag, and a
    [true] flag makes that call reject (the handler's [catch] then answers
    500).

    Modelling choices:
    - request-body fields are JSON scalars ([jval]); an absent field is
      [None] (JavaScript [undefined]).  Body fields that are JSON arrays or
      objects are not modelled (MongoDB would read them as query operators);
    - JSON numbers are integers ([Z]); NaN and fractions are not modelled;
    - JavaScript strings are lists of UTF-16 code units ([jstr]), so
      [.length] is the JavaScript length;
    - a [Date] is its time value in milliseconds ([Z]). *)

From Stdlib Require Import List String Ascii ZArith NArith Bool Lia.
From Stdlib Require Import Sorting.Sorted Sorting.Permutation.
Import ListNotations.
Open Scope Z_scope.
Set Warnings "-register-all".


(* ------------------------------------------------------------------ *)
(** ** JavaScript values *)

(** A JavaScript string: its UTF-16 code units. *)
Definition jstr := list N.

(** ASCII literal to [jstr] (for the literals of the source). *)
Definition u (s : string) : jstr :=
  map (fun a => N.of_nat (nat_of_ascii a)) (list_ascii_of_string s).
Arguments u : simpl never.

(** JSON scalars, as they arrive in [req.body] and are stored by MongoDB.
    The development covers request bodies whose fields are such scalars;
    array and object fields, which [express.json()] also delivers and which
    MongoDB reads as element matches and query operators, are outside it. *)
Inductive jval :=
| JNull
| JBool (b : bool)
| JNum (z : Z)
| JStr (s : jstr).

Definition jstr_eqb (a b : jstr) : bool :=
  if list_eq_dec N.eq_dec a b then true else false.

(** Strict equality [===] on scalars; it coincides with MongoDB's equality
    match of a scalar filter value against a scalar field. *)
Definition jval_eqb (a b : jval) : bool :=
  match a, b with
  | JNull, JNull => true
  | JBool x, JBool y => Bool.eqb x y
  | JNum x, JNum y => Z.eqb x y
  | JStr x, JStr y => jstr_eqb x y
  | _, _ => false
  end.

(** JavaScript truthiness of a possibly [undefined] body field. *)
Definition truthy (v : option jval) : bool :=
  match v with
  | None | Some JNull => false
  | Some (JBool b) => b
  | Some (JNum z) => negb (Z.eqb z 0)
  | Some (JStr s) => negb (Nat.eqb (List.length s) 0)
  end.

(** [a || d] on a body field. *)
Definition or_default (v : option jval) (d : jval) : jval :=
  match v with
  | Some x => if truthy v then x else d
  | None => d
  end.

(** Decimal digits of a natural number (for [String(n)]). *)
Fixpoint digits_aux (fuel : nat) (n : N) (acc : jstr) : jstr :=
  match fuel with
  | O => acc
  | S f =>
      let acc' := (48 + N.modulo n 10)%N :: acc in
      if N.ltb n 10 then acc' else digits_aux f (N.div n 10) acc'
  end.

Definition digits (n : N) : jstr := digits_aux (S (N.to_nat n)) n [].

(** [String(v)] on a scalar. *)
Definition js_ToString (v : option jval) : jstr :=
  match v with
  | None => u "undefined"
  | Some JNull => u "null"
  | Some (JBool true) => u "true"
  | Some (JBool false) => u "false"
  | Some (JNum z) =>
      if Z.ltb z 0 then u "-" ++ digits (Z.to_N (- z)) else digits (Z.to_N z)
  | Some (JStr s) => s
  end.

(** [v.length], [undefined] for a non-string. *)
Definition js_length (v : option jval) : option nat :=
  match v with
  | Some (JStr s) => Some (List.length s)
  | _ => None
  end.

(** [v.length < n]: a comparison with [undefined] is [false]. *)
Definition length_lt (v : option jval) (n : nat) : bool :=
  match js_length v with
  | Some l => Nat.ltb l n
  | None => false
  end.

Definition is_hex_digit (c : N) : bool :=
  ((48 <=? c) && (c <=? 57))%N || ((97 <=? c) && (c <=? 102))%N
  || ((65 <=? c) && (c <=? 70))%N.

(** [/^0x[a-fA-F0-9]{40}$/] on a string. *)
Definition eth_regex_match (s : jstr) : bool :=
  match s with
  | c1 :: c2 :: rest =>
      N.eqb c1 48 && N.eqb c2 120                          (* "0x" *)
      && Nat.eqb (List.length rest) 40 && forallb is_hex_digit rest
  | _ => false
  end.

(** [/^0x[a-fA-F0-9]{40}$/.test(v)]: [test] converts its argument with
    [String]. *)
Definition eth_regex_test (v : option jval) : bool :=
  eth_regex_match (js_ToString v).

(** [s.toLowerCase()] on the code units of ASCII letters.  It is only
    applied to strings accepted by [eth_regex_match], all ASCII, where it
    agrees with [String.prototype.toLowerCase]. *)
Definition to_lower_unit (c : N) : N :=
  if ((65 <=? c) && (c <=? 90))%N then (c + 32)%N else c.

Definition toLowerCase (s : jstr) : jstr := map to_lower_unit s.

(** [s.startsWith("0x")]. *)
Definition starts_with_0x (s : jstr) : bool :=
  match s with
  | c1 :: c2 :: _ => N.eqb c1 48 && N.eqb c2 120
  | _ => false
  end.

(* ------------------------------------------------------------------ *)
(** ** Documents, collections and the world *)

(** A document of the [users] collection.  [ethAddress] and [updatedAt]
    are absent from documents created by [/api/signup]. *)
Record user := mkUser {
  u_id : nat;
  username : jval;
  password : jval;
  email : jval;
  ethAddress : option jval;
  createdAt : Z;
  updatedAt : option Z
}.

(** A document of the [paymentRequests] collection. *)
Record payment_request := mkPaymentRequest {
  pr_id : nat;
  pr_upiId : jval;
  pr_amount : jval;
  pr_payeeName : jval;
  pr_note : jval;
  pr_contractRequestId : jval;
  pr_walletAddress : jval;
  pr_daiAmount : jval;
  pr_ethFee : jval;
  pr_requesterId : jval;
  pr_status : jval;
  pr_createdAt : Z
}.

(** A document of the [upiIndex] collection. *)
Record upi_entry := mkUpiEntry {
  ui_id : nat;
  ui_contractRequestId : jval;
  ui_upiId : jval;
  ui_payeeName : jval;
  ui_note : jval;
  ui_createdAt : Z
}.

Record world := mkWorld {
  users : list user;
  paymentRequests : list payment_request;
  upiIndex : list upi_entry;
  connected : bool;      (* the memoised [db] of [connectToDatabase] *)
  next_oid : nat;        (* the ObjectId generator *)
  now : Z                (* what [new Date()] reads *)
}.

Definition set_users (l : list user) (w : world) : world :=
  mkWorld l (paymentRequests w) (upiIndex w) (connected w) (next_oid w) (now w).
Definition set_paymentRequests (l : list payment_request) (w : world) : world :=
  mkWorld (users w) l (upiIndex w) (connected w) (next_oid w) (now w).
Definition set_upiIndex (l : list upi_entry) (w : world) : world :=
  mkWorld (users w) (paymentRequests w) l (connected w) (next_oid w) (now w).
Definition set_connected (w : world) : world :=
  mkWorld (users w) (paymentRequests w) (upiIndex w) true (next_oid w) (now w).
Definition bump_oid (w : world) : world :=
  mkWorld (users w) (paymentRequests w) (upiIndex w) (connected w) (S (next_oid w)) (now w).

(* ------------------------------------------------------------------ *)
(** ** Handlers' monad: state, store faults, exceptions *)

Inductive exn := MongoError | TypeError.

Inductive outcome (A : Type) := Ok (a : A) | Thrown (e : exn).
Arguments Ok {A} a.
Arguments Thrown {A} e.

(** The state threaded through a handler: the world and the remaining
    fault flags of this request's store calls. *)
Definition M (A : Type) := world * list bool -> outcome A * (world * list bool).

Definition ret {A} (a : A) : M A := fun s => (Ok a, s).
Definition throw {A} (e : exn) : M A := fun s => (Thrown e, s).
Definition bind {A B} (m : M A) (k : A -> M B) : M B :=
  fun s => match m s with
           | (Ok a, s') => k a s'
           | (Thrown e, s') => (Thrown e, s')
           end.

Notation "x <- m ;; k" := (bind m (fun x => k))
  (at level 61, m at next level, right associativity).
Notation "m ;;; k" := (bind m (fun _ => k))
  (at level 61, right associativity).

(** An awaited MongoDB call: it rejects when the next fault flag is set. *)
Definition mongo {A} (f : world -> A * world) : M A :=
  fun '(w, fl) =>
    match fl with
    | true :: fl' => (Thrown MongoError, (w, fl'))
    | false :: fl' => let '(a, w') := f w in (Ok a, (w', fl'))
    | [] => let '(a, w') := f w in (Ok a, (w', []))
    end.

(** [connectToDatabase]: no I/O once [db] is set. *)
Definition connectToDatabase : M unit :=
  fun '(w, fl) =>
    if connected w then (Ok tt, (w, fl))
    else mongo (fun w => (tt, set_connected w)) (w, fl).

Definition new_Date : M Z := fun '(w, fl) => (Ok (now w), (w, fl)).

(** [collection.findOne(filter)]: first match in natural order. *)
Definition users_findOne (p : user -> bool) : M (option user) :=
  mongo (fun w => (find p (users w), w)).

(** [collection.insertOne(doc)]: a fresh [_id] is assigned. *)
Definition users_insertOne (doc : nat -> user) : M nat :=
  mongo (fun w => (next_oid w, bump_oid (set_users (users w ++ [doc (next_oid w)]) w))).

(** Update of the first element satisfying [p]; [None] when there is none. *)
Fixpoint update_first {A} (p : A -> bool) (f : A -> A) (l : list A) : option (A * list A) :=
  match l with
  | [] => None
  | x :: l' =>
      if p x then Some (f x, f x :: l')
      else match update_first p f l' with
           | Some (y, l'') => Some (y, x :: l'')
           | None => None
           end
  end.

(** [collection.findOneAndUpdate(filter, update, {returnDocument: 'after'})]:
    the first match is updated; the updated document, or [null]. *)
Definition users_findOneAndUpdate (p : user -> bool) (f : user -> user) : M (option user) :=
  mongo (fun w => match update_first p f (users w) with
                  | Some (y, l) => (Some y, set_users l w)
                  | None => (None, w)
                  end).

(** The repository pins no version of the [mongodb] driver, and the value
    [findOneAndUpdate] resolves to changed with version 6: drivers 4 and 5
    resolve to a ModifyResult whose [value] is the document or [null];
    from driver 6 on, to the document or [null] itself. *)
Inductive driver := ModifyResultDriver | DocumentDriver.

(** [result.value] on what [findOneAndUpdate] resolved to.  With the
    document itself, [value] is [undefined] (no user document has a
    [value] property), and [null.value] throws a TypeError. *)
Definition result_value (d : driver) (result : option user) : M (option user) :=
  match d with
  | ModifyResultDriver => ret result
  | DocumentDriver =>
      match result with
      | Some _ => ret None
      | None => throw TypeError
      end
  end.

Definition pr_insertOne (doc : nat -> payment_request) : M nat :=
  mongo (fun w => (next_oid w,
                   bump_oid (set_paymentRequests (paymentRequests w ++ [doc (next_oid w)]) w))).

(** [collection.find(filter).toArray()]: matches in natural order. *)
Definition pr_find (p : payment_request -> bool) : M (list payment_request) :=
  mongo (fun w => (filter p (paymentRequests w), w)).

Definition pr_findOne (p : payment_request -> bool) : M (option payment_request) :=
  mongo (fun w => (find p (paymentRequests w), w)).

(** [collection.replaceOne(filter, doc, {upsert: true})]: the first match is
    replaced by [doc] (keeping its [_id]); with no match [doc] is inserted
    with a fresh [_id]. *)
Definition upsert_list (p : upi_entry -> bool) (doc : nat -> upi_entry) (fresh : nat)
    (l : list upi_entry) : list upi_entry :=
  match update_first p (fun old => doc (ui_id old)) l with
  | Some (_, l') => l'
  | None => l ++ [doc fresh]
  end.

Definition upsert_replace (p : upi_entry -> bool) (doc : nat -> upi_entry) (w : world) : world :=
  match update_first p (fun old => doc (ui_id old)) (upiIndex w) with
  | Some (_, l) => set_upiIndex l w
  | None => bump_oid (set_upiIndex (upsert_list p doc (next_oid w) (upiIndex w)) w)
  end.

Definition upi_replaceOne_upsert (p : upi_entry -> bool) (doc : nat -> upi_entry) : M unit :=
  mongo (fun w => (tt, upsert_replace p doc w)).

Definition upi_findOne (p : upi_entry -> bool) : M (option upi_entry) :=
  mongo (fun w => (find p (upiIndex w), w)).

(* ------------------------------------------------------------------ *)
(** ** Requests and responses *)

(** A parsed JSON request body ([req.body]): a JSON object with scalar fields. *)
Definition body := list (string * jval).

(** [req.body.k]; [JSON.parse] keeps the last of duplicated keys. *)
Definition field (b : body) (k : string) : option jval :=
  match find (fun '(k', _) => String.eqb k k') (rev b) with
  | Some (_, v) => Some v
  | None => None
  end.

(** The value of a body field known to be defined (guarded by [truthy]). *)
Definition val (v : option jval) : jval :=
  match v with Some x => x | None => JNull end.

(** The JSON sent by [res.json]. *)
Inductive json :=
| JV (v : jval)
| JDate (t : Z)                         (* a [Date], sent as its ISO string *)
| JOid (n : nat)                        (* [ObjectId.toString()] *)
| JObj (fields : list (string * json))
| JArr (items : list json).

Record response := mkResponse { status : Z; rbody : json }.

(** [res.status(code).json({ error: msg })]. *)
Definition err (code : Z) (msg : jstr) : response :=
  mkResponse code (JObj [("error"%string, JV (JStr msg))]).

(** The [catch] of every handler. *)
Definition error500 : response := err 500 (u "Internal server error").

(** Run a handler on a world with the fault flags of its store calls. *)
Definition handle (m : M response) (w : world) (fl : list bool) : response * world :=
  match m (w, fl) with
  | (Ok r, (w', _)) => (r, w')
  | (Thrown _, (w', _)) => (error500, w')
  end.

(** [JSON.stringify] drops a property whose value is [undefined]. *)
Definition opt_field (k : string) (v : option jval) : list (string * json) :=
  match v with Some x => [(k, JV x)] | None => [] end.

(* ------------------------------------------------------------------ *)
(** ** POST /api/signup *)

Definition post_signup (b : body) : M response :=
  connectToDatabase ;;;
  let uname := field b "username" in
  let pwd := field b "password" in
  if negb (truthy uname) || negb (truthy pwd) then
    ret (err 400 (u "Username and password are required"))
  else if length_lt pwd 6 then
    ret (err 400 (u "Password must be at least 6 characters long"))
  else
    existingUser <- users_findOne (fun x => jval_eqb (username x) (val uname)) ;;
    match existingUser with
    | Some _ => ret (err 409 (u "Username already exists"))
    | None =>
        t <- new_Date ;;
        id <- users_insertOne (fun id => mkUser id (val uname) (val pwd) (JStr []) None t None) ;;
        ret (mkResponse 201 (JObj [
          ("message"%string, JV (JStr (u "User created successfully")));
          ("user"%string, JObj [("id"%string, JOid id);
                                ("username"%string, JV (val uname));
                                ("email"%string, JV (JStr []));
                                ("createdAt"%string, JDate t)])]))
    end.

(* ------------------------------------------------------------------ *)
(** ** POST /api/login *)

Definition post_login (b : body) : M response :=
  connectToDatabase ;;;
  let uname := field b "username" in
  let pwd := field b "password" in
  if negb (truthy uname) || negb (truthy pwd) then
    ret (err 400 (u "Username and password are required"))
  else
    found <- users_findOne (fun x => jval_eqb (username x) (val uname)) ;;
    match found with
    | None => ret (err 401 (u "Invalid username or password"))
    | Some x =>
        if negb (jval_eqb (password x) (val pwd)) then
          ret (err 401 (u "Invalid username or password"))
        else
          ret (mkResponse 200 (JObj [
            ("message"%string, JV (JStr (u "Login successful")));
            ("user"%string, JObj [("id"%string, JOid (u_id x));
                                  ("username"%string, JV (username x));
                                  ("email"%string, JV (email x));
                                  ("createdAt"%string, JDate (createdAt x))])]))
    end.

(* ------------------------------------------------------------------ *)
(** ** POST /api/update-wallet *)

(** The [$set] of the update: [ethAddress] and [updatedAt]. *)
Definition set_wallet (addr : jstr) (t : Z) (x : user) : user :=
  mkUser (u_id x) (username x) (password x) (email x) (Some (JStr addr))
         (createdAt x) (Some t).

Definition post_update_wallet_with (d : driver) (b : body) : M response :=
  connectToDatabase ;;;
  let eth := field b "ethAddress" in
  let uname := field b "username" in
  if negb (truthy eth) then ret (err 400 (u "ETH address is required"))
  else if negb (truthy uname) then ret (err 400 (u "Username is required"))
  else if negb (eth_regex_test eth) then ret (err 400 (u "Invalid ETH address format"))
  else
    match eth with
    | Some (JStr a) =>
        let lower := toLowerCase a in
        existingWallet <- users_findOne (fun x =>
            match ethAddress x with
            | Some v => jval_eqb v (JStr lower)
            | None => false
            end && negb (jval_eqb (username x) (val uname))) ;;
        match existingWallet with
        | Some ew =>
            ret (err 409 (u "This address " ++ a ++ u " is already registered to user: "
                            ++ js_ToString (Some (username ew))))
        | None =>
            existingUser <- users_findOne (fun x => jval_eqb (username x) (val uname)) ;;
            t <- new_Date ;;
            result <- users_findOneAndUpdate (fun x => jval_eqb (username x) (val uname))
                                             (set_wallet lower t) ;;
            value <- result_value d result ;;
            match value with
            | None => ret (err 404 (u "User not found with username: " ++ js_ToString uname))
            | Some v =>
                ret (mkResponse 200 (JObj [
                  ("message"%string, JV (JStr (u "Wallet address updated successfully")));
                  ("user"%string, JObj ([("id"%string, JOid (u_id v));
                                         ("username"%string, JV (username v));
                                         ("email"%string, JV (email v))]
                                        ++ opt_field "ethAddress" (ethAddress v)
                                        ++ [("createdAt"%string, JDate (createdAt v))]))]))
            end
        end
    | _ => throw TypeError      (* [ethAddress.toLowerCase] of a non-string *)
    end.

(** The handler with a driver of versions 4 and 5. *)
Definition post_update_wallet : body -> M response := post_update_wallet_with ModifyResultDriver.

(* ------------------------------------------------------------------ *)
(** ** POST /api/login-wallet *)

Definition post_login_wallet (b : body) : M response :=
  connectToDatabase ;;;
  let eth := field b "ethAddress" in
  let sig := field b "signature" in
  if negb (truthy eth) || negb (truthy sig) then
    ret (err 400 (u "ETH address and signature are required"))
  else if negb (eth_regex_test eth) then ret (err 400 (u "Invalid ETH address format"))
  else
    match eth with
    | Some (JStr a) =>
        found <- users_findOne (fun x =>
            match ethAddress x with
            | Some v => jval_eqb v (JStr (toLowerCase a))
            | None => false
            end) ;;
        match found with
        | None => ret (err 404 (u "User not found. Please register first."))
        | Some x =>
            match sig with
            | Some (JStr s) =>
                if negb (starts_with_0x s) || negb (Nat.eqb (List.length s) 132) then
                  ret (err 401 (u "Invalid signature format"))
                else
                  ret (mkResponse 200 (JObj [
                    ("message"%string, JV (JStr (u "Wallet login successful")));
                    ("user"%string, JObj ([("id"%string, JOid (u_id x));
                                           ("username"%string, JV (username x));
                                           ("email"%string, JV (email x))]
                                          ++ opt_field "ethAddress" (ethAddress x)
                                          ++ [("createdAt"%string, JDate (createdAt x))]))]))
            | _ => throw TypeError    (* [signature.startsWith] of a non-string *)
            end
        end
    | _ => throw TypeError
    end.

(* ------------------------------------------------------------------ *)
(** ** POST /api/register-wallet *)

Definition post_register_wallet (b : body) : M response :=
  connectToDatabase ;;;
  let eth := field b "ethAddress" in
  let sig := field b "signature" in
  let uname := field b "username" in
  if negb (truthy eth) || negb (truthy sig) || negb (truthy uname) then
    ret (err 400 (u "ETH address, signature, and username are required"))
  else if negb (eth_regex_test eth) then ret (err 400 (u "Invalid ETH address format"))
  else if length_lt uname 3 then
    ret (err 400 (u "Username must be at least 3 characters long"))
  else
    existingUsername <- users_findOne (fun x => jval_eqb (username x) (val uname)) ;;
    match existingUsername with
    | Some _ => ret (err 409 (u "Username already exists"))
    | None =>
        match eth with
        | Some (JStr a) =>
            let lower := toLowerCase a in
            existingWallet <- users_findOne (fun x =>
                match ethAddress x with
                | Some v => jval_eqb v (JStr lower)
                | None => false
                end) ;;
            match existingWallet with
            | Some ew =>
                ret (err 409 (u "This address " ++ a ++ u " is already registered to user: "
                                ++ js_ToString (Some (username ew))))
            | None =>
                match sig with
                | Some (JStr s) =>
                    if negb (starts_with_0x s) || negb (Nat.eqb (List.length s) 132) then
                      ret (err 401 (u "Invalid signature format"))
                    else
                      t <- new_Date ;;
                      id <- users_insertOne (fun id =>
                              mkUser id (val uname) (JStr []) (JStr []) (Some (JStr lower)) t None) ;;
                      ret (mkResponse 201 (JObj [
                        ("message"%string, JV (JStr (u "Wallet registration successful")));
                        ("user"%string, JObj [("id"%string, JOid id);
                                              ("username"%string, JV (val uname));
                                              ("email"%string, JV (JStr []));
                                              ("ethAddress"%string, JV (JStr lower));
                                              ("createdAt"%string, JDate t)])]))
                | _ => throw TypeError
                end
            end
        | _ => throw TypeError
        end
    end.

(* ------------------------------------------------------------------ *)
(** ** POST /api/payment-request *)

(** The [newPaymentRequest] document, given its [_id]. *)
Definition new_payment_request (b : body) (a : Z) (t : Z) (id : nat) : payment_request :=
  mkPaymentRequest id (val (field b "upiId")) (JNum a)
    (or_default (field b "payeeName") (JStr [])) (or_default (field b "note") (JStr []))
    (or_default (field b "contractRequestId") JNull)
    (or_default (field b "walletAddress") (JStr []))
    (or_default (field b "daiAmount") (JNum 0)) (or_default (field b "ethFee") (JNum 0))
    (or_default (field b "walletAddress") (JStr (u "anonymous")))
    (JStr (u "pending")) t.

Definition post_payment_request (b : body) : M response :=
  connectToDatabase ;;;
  let upiId := field b "upiId" in
  let amount := field b "amount" in
  let payeeName := field b "payeeName" in
  let note := field b "note" in
  let contractRequestId := field b "contractRequestId" in
  let walletAddress := field b "walletAddress" in
  let daiAmount := field b "daiAmount" in
  let ethFee := field b "ethFee" in
  if negb (truthy upiId) || negb (truthy amount) then
    ret (err 400 (u "UPI ID and amount are required"))
  else
    match amount with
    | Some (JNum a) =>
      if a <=? 0 then ret (err 400 (u "Amount must be a positive number"))
      else
        t <- new_Date ;;
        let newPaymentRequest := new_payment_request b a t in
        id <- pr_insertOne newPaymentRequest ;;
        (if truthy contractRequestId then
           t' <- new_Date ;;
           let c := val contractRequestId in
           upi_replaceOne_upsert (fun e => jval_eqb (ui_contractRequestId e) c)
             (fun id => mkUpiEntry id c (val upiId) (or_default payeeName (JStr []))
                                   (or_default note (JStr [])) t')
         else ret tt) ;;;
        let pr := newPaymentRequest id in
        ret (mkResponse 201 (JObj [
          ("message"%string, JV (JStr (u "Payment request created successfully")));
          ("paymentRequest"%string, JObj [
             ("id"%string, JOid id); ("upiId"%string, JV (pr_upiId pr));
             ("amount"%string, JV (pr_amount pr)); ("payeeName"%string, JV (pr_payeeName pr));
             ("note"%string, JV (pr_note pr));
             ("contractRequestId"%string, JV (pr_contractRequestId pr));
             ("walletAddress"%string, JV (pr_walletAddress pr));
             ("daiAmount"%string, JV (pr_daiAmount pr)); ("ethFee"%string, JV (pr_ethFee pr));
             ("requesterId"%string, JV (pr_requesterId pr));
             ("status"%string, JV (pr_status pr)); ("createdAt"%string, JDate (pr_createdAt pr))])]))
    | _ => ret (err 400 (u "Amount must be a positive number"))   (* [typeof amount !== 'number'] *)
    end.

(* ------------------------------------------------------------------ *)
(** ** GET /api/upi-id/contract/:contractRequestId *)

(** [param] is the route parameter, always a string. *)
Definition get_upi_by_contract (param : jstr) : M response :=
  connectToDatabase ;;;
  if Nat.eqb (List.length param) 0 then ret (err 400 (u "Contract request ID is required"))
  else
    entry <- upi_findOne (fun e => jval_eqb (ui_contractRequestId e) (JStr param)) ;;
    match entry with
    | None => ret (err 404 (u "UPI ID not found for the given contract ID"))
    | Some e =>
        ret (mkResponse 200 (JObj [
          ("message"%string, JV (JStr (u "UPI ID retrieved successfully")));
          ("contractRequestId"%string, JV (JStr param));
          ("upiId"%string, JV (ui_upiId e));
          ("payeeName"%string, JV (ui_payeeName e));
          ("note"%string, JV (ui_note e))]))
    end.

(* ------------------------------------------------------------------ *)
(** ** GET /api/payment-request/contract/:contractRequestId *)

Definition format_full (p : payment_request) : json :=
  JObj [("id"%string, JOid (pr_id p)); ("upiId"%string, JV (pr_upiId p));
        ("amount"%string, JV (pr_amount p)); ("payeeName"%string, JV (pr_payeeName p));
        ("note"%string, JV (pr_note p));
        ("contractRequestId"%string, JV (pr_contractRequestId p));
        ("walletAddress"%string, JV (pr_walletAddress p));
        ("daiAmount"%string, JV (pr_daiAmount p)); ("ethFee"%string, JV (pr_ethFee p));
        ("requesterId"%string, JV (pr_requesterId p));
        ("status"%string, JV (pr_status p)); ("createdAt"%string, JDate (pr_createdAt p))].

Definition get_payment_request_by_contract (param : jstr) : M response :=
  connectToDatabase ;;;
  if Nat.eqb (List.length param) 0 then ret (err 400 (u "Contract request ID is required"))
  else
    found <- pr_findOne (fun p => jval_eqb (pr_contractRequestId p) (JStr param)) ;;
    match found with
    | None => ret (err 404 (u "Payment request not found for the given contract ID"))
    | Some p =>
        ret (mkResponse 200 (JObj [
          ("message"%string, JV (JStr (u "Payment request retrieved successfully")));
          ("paymentRequest"%string, format_full p)]))
    end.

(* ------------------------------------------------------------------ *)
(** ** GET /api/payment-requests *)

(** [.sort({ createdAt: -1 })]: descending [createdAt].  MongoDB does not
    fix the order of equal keys; this insertion sort keeps natural order
    among them. *)
Fixpoint insert_desc (p : payment_request) (l : list payment_request) : list payment_request :=
  match l with
  | [] => [p]
  | q :: l' => if pr_createdAt q <? pr_createdAt p then p :: q :: l'
               else q :: insert_desc p l'
  end.

Fixpoint sort_createdAt_desc (l : list payment_request) : list payment_request :=
  match l with
  | [] => []
  | p :: l' => insert_desc p (sort_createdAt_desc l')
  end.

(** The [map] of the handler: a projection of each document. *)
Definition format_listed (p : payment_request) : json :=
  JObj [("id"%string, JOid (pr_id p)); ("upiId"%string, JV (pr_upiId p));
        ("amount"%string, JV (pr_amount p)); ("payeeName"%string, JV (pr_payeeName p));
        ("note"%string, JV (pr_note p)); ("requesterId"%string, JV (pr_requesterId p));
        ("status"%string, JV (pr_status p)); ("createdAt"%string, JDate (pr_createdAt p))].

Definition is_pending (p : payment_request) : bool :=
  jval_eqb (pr_status p) (JStr (u "pending")).

Definition get_payment_requests : M response :=
  connectToDatabase ;;;
  found <- pr_find is_pending ;;
  let sorted := sort_createdAt_desc found in
  ret (mkResponse 200 (JObj [
    ("message"%string, JV (JStr (u "Payment requests retrieved successfully")));
    ("paymentRequests"%string, JArr (map format_listed sorted))])).

(* ------------------------------------------------------------------ *)
(** ** Notions used by the theorems *)

(** A freshly deployed server: empty collections, not yet connected. *)
Definition empty_world : world := mkWorld [] [] [] false 0 0.

(** The upiIndex collection after [POST /api/payment-request]. *)
Definition upi_doc (b : body) (t : Z) : nat -> upi_entry :=
  fun id => mkUpiEntry id (val (field b "contractRequestId")) (val (field b "upiId"))
                       (or_default (field b "payeeName") (JStr []))
                       (or_default (field b "note") (JStr [])) t.

Definition upi_key (c : jval) : upi_entry -> bool :=
  fun e => jval_eqb (ui_contractRequestId e) c.

(** ** Traces of payment-request creations *)

(** The body carries the string [s] as its [contractRequestId]. *)
Definition carries (s : jstr) (b : body) : bool :=
  match field b "contractRequestId" with
  | Some (JStr s') => jstr_eqb s' s
  | _ => false
  end.

(** A sequence of [POST /api/payment-request] calls, each with the fault
    flags of its own store calls; the trace pairs each body with its
    response. *)
Fixpoint run_posts (reqs : list (body * list bool)) (w : world)
    : list (body * response) * world :=
  match reqs with
  | [] => ([], w)
  | (b, fl) :: rest =>
      let '(r, w1) := handle (post_payment_request b) w fl in
      let '(tr, w2) := run_posts rest w1 in
      ((b, r) :: tr, w2)
  end.

(** The most recent successful (201) call of the trace carrying [s]. *)
Fixpoint last_success (s : jstr) (tr : list (body * response)) : option body :=
  match tr with
  | [] => None
  | (b, r) :: tr' =>
      match last_success s tr' with
      | Some b' => Some b'
      | None => if Z.eqb (status r) 201 && carries s b then Some b else None
      end
  end.

(** The upiIndex document a call with body [b] writes for [s]. *)
Definition upi_entry_of (s : jstr) (b : body) (i : nat) (t : Z) : upi_entry :=
  mkUpiEntry i (JStr s) (val (field b "upiId"))
             (or_default (field b "payeeName") (JStr []))
             (or_default (field b "note") (JStr [])) t.

Definition upi_keys_unique (w : world) : Prop :=
  NoDup (map ui_contractRequestId (upiIndex w)).

(** A payment-request body with a contract identifier. *)
Definition pr_body (upi : string) (amount : Z) (cid : string) : body :=
  [("upiId"%string, JStr (u upi)); ("amount"%string, JNum amount);
   ("contractRequestId"%string, JStr (u cid))].

(** The fault flag consumed by [connectToDatabase], if it performs I/O. *)
Definition connect_flags (w : world) : list bool := if connected w then [] else [false].

(** The validation guards of [POST /api/payment-request] pass. *)
Definition valid_payment_body (b : body) : Prop :=
  truthy (field b "upiId") = true /\ exists a, field b "amount" = Some (JNum a) /\ 0 < a.

(** A [POST /api/login-wallet] body. *)
Definition login_body (addr : jstr) (sig : jval) : body :=
  [("ethAddress"%string, JStr addr); ("signature"%string, sig)].

(** The syntactic signature check of the wallet handlers passes. *)
Definition signature_shape_ok (s : jstr) : bool :=
  starts_with_0x s && Nat.eqb (List.length s) 132.

(** The user holding the lowercased address, the one the handlers find. *)
Definition holds_address (addr : jstr) (x : user) : bool :=
  match ethAddress x with
  | Some v => jval_eqb v (JStr (toLowerCase addr))
  | None => false
  end.

(** The 200 answer of [POST /api/login-wallet] for user [x]. *)
Definition login_wallet_ok (x : user) : response :=
  mkResponse 200 (JObj [
    ("message"%string, JV (JStr (u "Wallet login successful")));
    ("user"%string, JObj ([("id"%string, JOid (u_id x));
                           ("username"%string, JV (username x));
                           ("email"%string, JV (email x))]
                          ++ opt_field "ethAddress" (ethAddress x)
                          ++ [("createdAt"%string, JDate (createdAt x))]))]).

(** A wallet address in mixed case, and a world where it is registered. *)
Definition sample_addr : jstr := u "0xABCDEF0123456789abcdef0123456789ABCDEF01".

Definition sample_user : user :=
  mkUser 0 (JStr (u "bob")) (JStr []) (JStr []) (Some (JStr (toLowerCase sample_addr))) 5 None.

Definition sample_world : world := mkWorld [sample_user] [] [] true 1 10.


(** A [POST /api/update-wallet] body. *)
Definition update_body (addr uname : jstr) : body :=
  [("ethAddress"%string, JStr addr); ("username"%string, JStr uname)].

Definition has_username (uname : jstr) (x : user) : bool := jval_eqb (username x) (JStr uname).

(** The 200 answer of [POST /api/update-wallet] for the updated user [v]. *)
Definition update_wallet_ok (v : user) : response :=
  mkResponse 200 (JObj [
    ("message"%string, JV (JStr (u "Wallet address updated successfully")));
    ("user"%string, JObj ([("id"%string, JOid (u_id v));
                           ("username"%string, JV (username v));
                           ("email"%string, JV (email v))]
                          ++ opt_field "ethAddress" (ethAddress v)
                          ++ [("createdAt"%string, JDate (createdAt v))]))]).

(** Newest first: [p] comes before [q] when [q] is not newer. *)
Definition newer_or_same (p q : payment_request) : Prop := pr_createdAt q <= pr_createdAt p.

(** Some object of the JSON, at any depth, has the property [k]. *)
Fixpoint json_has_key (k : string) (j : json) : bool :=
  match j with
  | JObj fs =>
      (fix go (fs : list (string * json)) : bool :=
         match fs with
         | [] => false
         | (k', v) :: fs' => String.eqb k k' || json_has_key k v || go fs'
         end) fs
  | JArr items =>
      (fix go (l : list json) : bool :=
         match l with
         | [] => false
         | v :: l' => json_has_key k v || go l'
         end) items
  | _ => false
  end.

(** A [POST /api/signup] body. *)
Definition signup_body (uname : jval) (pwd : jstr) : body :=
  [("username"%string, uname); ("password"%string, JStr pwd)].

(** The document [/api/signup] inserts. *)
Definition signup_user (uname : jval) (pwd : jstr) (id : nat) (t : Z) : user :=
  mkUser id uname (JStr pwd) (JStr []) None t None.

(** A [POST /api/register-wallet] body. *)
Definition register_body (addr : jstr) (sig : jstr) (uname : jval) : body :=
  [("ethAddress"%string, JStr addr); ("signature"%string, JStr sig);
   ("username"%string, uname)].

(** The document [/api/register-wallet] inserts. *)
Definition wallet_user (addr : jstr) (uname : jval) (id : nat) (t : Z) : user :=
  mkUser id uname (JStr []) (JStr []) (Some (JStr (toLowerCase addr))) t None.

(** A syntactically valid signature, and [sample_addr] in another letter case. *)
Definition sample_sig : jstr := u "0x" ++ repeat 97%N 130.

Definition sample_addr_variant : jstr := u "0xabcdef0123456789ABCDEF0123456789abcdef01".

(** The handlers whose answers describe a user. *)
Definition user_endpoints : list (body -> M response) :=
  [post_signup; post_login; post_login_wallet; post_update_wallet; post_register_wallet].

(** The properties a user envelope may carry. *)
Definition allowed_user_key (k : string) : bool :=
  existsb (String.eqb k) ["id"; "username"; "email"; "ethAddress"; "createdAt"]%string.

(** [{ message, user: {...} }] with only allowed properties in [user]. *)
Definition user_envelope_ok (j : json) : bool :=
  match j with
  | JObj [(k1, JV (JStr _)); (k2, JObj fs)] =>
      String.eqb k1 "message" && String.eqb k2 "user"
      && forallb (fun '(k, _) => allowed_user_key k) fs
  | _ => false
  end.

(** Every route of the app, on a request body [b] and a route parameter [p]. *)
Definition all_routes (b : body) (p : jstr) : list (M response) :=
  [post_signup b; post_login b; post_payment_request b; get_upi_by_contract p;
   get_payment_request_by_contract p; get_payment_requests; post_update_wallet b;
   post_login_wallet b; post_register_wallet b; post_update_wallet_with DocumentDriver b].

(** The routes that only read the collections. *)
Definition read_only_routes (b : body) (p : jstr) : list (M response) :=
  [post_login b; get_upi_by_contract p; get_payment_request_by_contract p;
   get_payment_requests; post_login_wallet b].

(** The three collections of the database. *)
Definition collections (w : world) : list user * list payment_request * list upi_entry :=
  (users w, paymentRequests w, upiIndex w).




(** The routes with no [TypeError] path. *)
Definition routes_without_throw (b : body) (p : jstr) : list (M response) :=
  [post_signup b; post_login b; post_payment_request b; get_upi_by_contract p;
   get_payment_request_by_contract p; get_payment_requests].

(** The 200 answer of [POST /api/login] for user [x]. *)
Definition login_ok (x : user) : response :=
  mkResponse 200 (JObj [
    ("message"%string, JV (JStr (u "Login successful")));
    ("user"%string, JObj [("id"%string, JOid (u_id x));
                          ("username"%string, JV (username x));
                          ("email"%string, JV (email x));
                          ("createdAt"%string, JDate (createdAt x))])]).

(** A store with one user who signed up with a password. *)
Definition password_world : world :=
  mkWorld [signup_user (JStr (u "alice")) (u "secret1") 0 3] [] [] true 1 10.

(** A [POST /api/payment-request] body whose contractRequestId is a number. *)
Definition numeric_cid_body : body :=
  [("upiId"%string, JStr (u "shop@upi")); ("amount"%string, JNum 250);
   ("contractRequestId"%string, JNum 7)].

(** A stored payment request with contract id "c1", and a store holding it. *)
Definition stored_pr : payment_request :=
  new_payment_request (pr_body "shop@upi" 100 "c1") 100 10 1.

Definition pr_world : world := mkWorld [sample_user] [stored_pr] [] true 2 10.

(* ================================================================== *)
(** * Proofs *)

(** ** Tactics for running a handler symbolically *)

Ltac run_step :=
  match goal with
  | |- context [match ?x with _ => _ end] =>
      lazymatch x with
      | context [match _ with _ => _ end] => fail
      | _ => destruct x eqn:?
      end
  end.

Ltac run_handler :=
  repeat (simpl in *; try discriminate; try run_step).


Lemma upiIndex_upsert_replace p doc w :
  upiIndex (upsert_replace p doc w) = upsert_list p doc (next_oid w) (upiIndex w).
Proof.
  unfold upsert_replace, upsert_list.
  destruct (update_first _ _ _) as [[? ?]|]; reflexivity.
Qed.

Lemma paymentRequests_upsert_replace p doc w :
  paymentRequests (upsert_replace p doc w) = paymentRequests w.
Proof.
  unfold upsert_replace; destruct (update_first _ _ _) as [[? ?]|]; reflexivity.
Qed.

Lemma users_upsert_replace p doc w : users (upsert_replace p doc w) = users w.
Proof.
  unfold upsert_replace; destruct (update_first _ _ _) as [[? ?]|]; reflexivity.
Qed.

Lemma post_payment_request_upiIndex (b : body) (w : world) (fl : list bool) :
  let '(r, w') := handle (post_payment_request b) w fl in
  (status r = 201 /\ truthy (field b "contractRequestId") = true /\
     exists n t, upiIndex w' =
       upsert_list (upi_key (val (field b "contractRequestId"))) (upi_doc b t) n (upiIndex w))
  \/ (status r = 201 /\ truthy (field b "contractRequestId") = false /\ upiIndex w' = upiIndex w)
  \/ (status r <> 201 /\ upiIndex w' = upiIndex w).
Proof.
  unfold handle, post_payment_request, bind, ret, connectToDatabase, mongo, new_Date,
    pr_insertOne, upi_replaceOne_upsert.
  destruct (connected w); destruct fl as [|[] fl]; run_handler;
    first [ right; right; split; [discriminate | reflexivity]
          | right; left; repeat split; reflexivity
          | left; split; [reflexivity|]; split; [reflexivity|];
            do 2 eexists; rewrite upiIndex_upsert_replace; reflexivity ].
Qed.

(** ** Lemmas on scalars, [update_first] and the upsert *)

Lemma jstr_eqb_eq (a b : jstr) : jstr_eqb a b = true <-> a = b.
Proof. unfold jstr_eqb; destruct (list_eq_dec N.eq_dec a b); split; congruence. Qed.

Lemma jval_eqb_eq (a b : jval) : jval_eqb a b = true <-> a = b.
Proof.
  destruct a, b; simpl; split; intro H; try discriminate; try reflexivity.
  all: first [ apply Bool.eqb_prop in H; subst; reflexivity
             | injection H as ->; apply Bool.eqb_reflx
             | apply Z.eqb_eq in H; subst; reflexivity
             | injection H as ->; apply Z.eqb_refl
             | apply jstr_eqb_eq in H; subst; reflexivity
             | injection H as ->; apply jstr_eqb_eq; reflexivity ].
Qed.

Lemma jval_eqb_refl (a : jval) : jval_eqb a a = true.
Proof. apply jval_eqb_eq; reflexivity. Qed.

Lemma update_first_none {A} (p : A -> bool) f l :
  update_first p f l = None -> filter p l = [].
Proof.
  induction l as [|x l IH]; simpl; [reflexivity|].
  destruct (p x); [discriminate|].
  destruct (update_first p f l) as [[? ?]|]; [discriminate|auto].
Qed.

Lemma update_first_some {A} (p : A -> bool) f l y l' :
  update_first p f l = Some (y, l') ->
  exists pre x post, l = pre ++ x :: post /\ filter p pre = [] /\ p x = true /\
                     y = f x /\ l' = pre ++ f x :: post.
Proof.
  revert y l'; induction l as [|x l IH]; intros y l' H; simpl in H; [discriminate|].
  destruct (p x) eqn:Hx.
  - inversion H; subst. exists [], x, l; auto.
  - destruct (update_first p f l) as [[y0 l0]|] eqn:E; [|discriminate].
    inversion H; subst.
    destruct (IH _ _ eq_refl) as (pre & z & post & -> & Hpre & Hz & -> & ->).
    exists (x :: pre), z, post; simpl; rewrite Hx; auto.
Qed.

Lemma filter_app_nil {A} (p : A -> bool) l1 l2 :
  filter p l1 = [] -> filter p (l1 ++ l2) = filter p l2.
Proof. intro H; rewrite filter_app, H; reflexivity. Qed.

Lemma find_filter {A} (p : A -> bool) l : find p l = hd_error (filter p l).
Proof. induction l as [|x l IH]; simpl; [reflexivity|]; destruct (p x); auto. Qed.

Section Upsert.
Variable c : jval.
Variable doc : nat -> upi_entry.
Hypothesis doc_key : forall i, ui_contractRequestId (doc i) = c.

Lemma upsert_list_keys n l :
  map ui_contractRequestId (upsert_list (upi_key c) doc n l) = map ui_contractRequestId l
  \/ (filter (upi_key c) l = [] /\
      map ui_contractRequestId (upsert_list (upi_key c) doc n l)
      = map ui_contractRequestId l ++ [c]).
Proof.
  unfold upsert_list.
  destruct (update_first _ _ l) as [[y l']|] eqn:E.
  - left. destruct (update_first_some _ _ _ _ _ E) as (pre & x & post & -> & _ & Hx & _ & ->).
    unfold upi_key in Hx; apply jval_eqb_eq in Hx.
    rewrite !map_app; simpl; rewrite doc_key, Hx; reflexivity.
  - right. split; [apply (update_first_none _ _ _ E)|].
    rewrite map_app; simpl; rewrite doc_key; reflexivity.
Qed.

Lemma filter_key_nil_notin l :
  filter (upi_key c) l = [] -> ~ In c (map ui_contractRequestId l).
Proof.
  intros H Hin. apply in_map_iff in Hin as (e & He & Hin).
  assert (In e (filter (upi_key c) l)) as Hf.
  { apply filter_In; split; [assumption|]. unfold upi_key; apply jval_eqb_eq; auto. }
  rewrite H in Hf; destruct Hf.
Qed.

Lemma upsert_list_nodup n l :
  NoDup (map ui_contractRequestId l) ->
  NoDup (map ui_contractRequestId (upsert_list (upi_key c) doc n l)).
Proof.
  intro Hnd. destruct (upsert_list_keys n l) as [-> | [Hf ->]]; [assumption|].
  apply NoDup_app; [assumption | constructor; [intros []|constructor] |].
  intros x Hx [<- | []]. exact (filter_key_nil_notin l Hf Hx).
Qed.

(** Another key's entries are untouched by the upsert. *)
Lemma upsert_list_other k n l :
  k <> c -> filter (upi_key k) (upsert_list (upi_key c) doc n l) = filter (upi_key k) l.
Proof.
  intro Hk. unfold upsert_list.
  assert (Hd : forall i, upi_key k (doc i) = false).
  { intro i; unfold upi_key; rewrite doc_key.
    destruct (jval_eqb c k) eqn:E; [apply jval_eqb_eq in E; congruence|reflexivity]. }
  destruct (update_first _ _ l) as [[y l']|] eqn:E.
  - destruct (update_first_some _ _ _ _ _ E) as (pre & x & post & -> & _ & Hx & _ & ->).
    assert (upi_key k x = false) as Hxk.
    { unfold upi_key in *; apply jval_eqb_eq in Hx; rewrite Hx.
      destruct (jval_eqb c k) eqn:E'; [apply jval_eqb_eq in E'; congruence|reflexivity]. }
    rewrite !filter_app; simpl; rewrite Hd, Hxk; reflexivity.
  - rewrite filter_app; simpl; rewrite Hd, app_nil_r; reflexivity.
Qed.

Lemma nodup_filter_key l :
  NoDup (map ui_contractRequestId l) ->
  forall pre x post, l = pre ++ x :: post -> filter (upi_key c) pre = [] ->
  upi_key c x = true -> filter (upi_key c) post = [].
Proof.
  intros Hnd pre x post -> Hpre Hx.
  rewrite map_app in Hnd; simpl in Hnd.
  apply NoDup_remove_2 in Hnd.
  unfold upi_key in Hx; apply jval_eqb_eq in Hx; subst c.
  destruct (filter (upi_key (ui_contractRequestId x)) post) as [|e rest] eqn:E;
    [reflexivity|exfalso].
  assert (In e (filter (upi_key (ui_contractRequestId x)) post)) as Hin by (rewrite E; left; auto).
  apply filter_In in Hin as [Hin He]. unfold upi_key in He; apply jval_eqb_eq in He.
  apply Hnd, in_or_app; right. rewrite <- He; apply in_map; assumption.
Qed.

(** The key written by the upsert has exactly one entry: the new document. *)
Lemma upsert_list_same n l :
  NoDup (map ui_contractRequestId l) ->
  exists i, filter (upi_key c) (upsert_list (upi_key c) doc n l) = [doc i].
Proof.
  intro Hnd. unfold upsert_list.
  assert (Hd : forall i, upi_key c (doc i) = true).
  { intro i; unfold upi_key; rewrite doc_key; apply jval_eqb_refl. }
  destruct (update_first _ _ l) as [[y l']|] eqn:E.
  - destruct (update_first_some _ _ _ _ _ E) as (pre & x & post & Hl & Hpre & Hx & _ & ->).
    exists (ui_id x).
    rewrite filter_app, Hpre; simpl; rewrite Hd.
    rewrite (nodup_filter_key l Hnd pre x post Hl Hpre Hx); reflexivity.
  - exists n. rewrite filter_app, (update_first_none _ _ _ E); simpl; rewrite Hd; reflexivity.
Qed.
End Upsert.


Lemma upsert_list_in (p : upi_entry -> bool) doc n l :
  exists i, In (doc i) (upsert_list p doc n l).
Proof.
  unfold upsert_list.
  destruct (update_first _ _ l) as [[y l']|] eqn:E.
  - destruct (update_first_some _ _ _ _ _ E) as (pre & x & post & _ & _ & _ & _ & ->).
    exists (ui_id x); apply in_or_app; right; left; reflexivity.
  - exists n; apply in_or_app; right; left; reflexivity.
Qed.

Lemma carries_true s b :
  carries s b = true -> field b "contractRequestId" = Some (JStr s).
Proof.
  unfold carries; destruct (field b "contractRequestId") as [[| | |s']|]; try discriminate.
  intro H; apply jstr_eqb_eq in H; subst; reflexivity.
Qed.

Lemma carries_false s b :
  truthy (field b "contractRequestId") = true -> carries s b = false ->
  val (field b "contractRequestId") <> JStr s.
Proof.
  unfold carries; destruct (field b "contractRequestId") as [[| | |s']|]; simpl;
    try discriminate; try (intros; discriminate).
  intros _ H E; injection E as ->. rewrite (proj2 (jstr_eqb_eq s s) eq_refl) in H; discriminate.
Qed.

Lemma post_payment_request_step (s : jstr) (b : body) (w : world) (fl : list bool) :
  s <> [] -> upi_keys_unique w ->
  let '(r, w1) := handle (post_payment_request b) w fl in
  upi_keys_unique w1 /\
  (if Z.eqb (status r) 201 && carries s b
   then exists i t, filter (upi_key (JStr s)) (upiIndex w1) = [upi_entry_of s b i t]
   else filter (upi_key (JStr s)) (upiIndex w1) = filter (upi_key (JStr s)) (upiIndex w)).
Proof.
  intros Hs Hnd. pose proof (post_payment_request_upiIndex b w fl) as Hstep.
  destruct (handle (post_payment_request b) w fl) as [r w1].
  unfold upi_keys_unique in *.
  destruct Hstep as [(H201 & Ht & n & t & Hw1) | [(H201 & Ht & Hw1) | (H201 & Hw1)]].
  - rewrite Hw1.
    assert (Hdk : forall i, ui_contractRequestId (upi_doc b t i)
                            = val (field b "contractRequestId")) by reflexivity.
    split; [apply upsert_list_nodup; auto|].
    rewrite H201; simpl.
    destruct (carries s b) eqn:Hc.
    + pose proof (carries_true s b Hc) as Ef.
      destruct (upsert_list_same _ (upi_doc b t) Hdk n _ Hnd) as [i Hi].
      assert (Hk : val (field b "contractRequestId") = JStr s) by (rewrite Ef; reflexivity).
      rewrite Hk in Hi. exists i, t. rewrite Hk, Hi.
      unfold upi_doc, upi_entry_of; rewrite Ef; reflexivity.
    + apply upsert_list_other; [assumption|].
      intro E; symmetry in E; revert E; apply carries_false; assumption.
  - rewrite Hw1; split; [assumption|].
    rewrite H201; simpl.
    destruct (carries s b) eqn:Hc; [|reflexivity].
    apply carries_true in Hc. rewrite Hc in Ht. simpl in Ht.
    destruct s; [congruence|discriminate].
  - rewrite Hw1; split; [assumption|].
    replace (Z.eqb (status r) 201) with false by (symmetry; apply Z.eqb_neq; assumption).
    reflexivity.
Qed.

(** The fault-free lookup answers from the first entry carrying [s]. *)
Lemma get_upi_by_contract_found (s : jstr) (w : world) e rest :
  s <> [] -> filter (upi_key (JStr s)) (upiIndex w) = e :: rest ->
  fst (handle (get_upi_by_contract s) w []) =
  mkResponse 200 (JObj [
    ("message"%string, JV (JStr (u "UPI ID retrieved successfully")));
    ("contractRequestId"%string, JV (JStr s));
    ("upiId"%string, JV (ui_upiId e));
    ("payeeName"%string, JV (ui_payeeName e));
    ("note"%string, JV (ui_note e))]).
Proof.
  intros Hs Hf.
  unfold handle, get_upi_by_contract, bind, ret, connectToDatabase, mongo, upi_findOne.
  destruct s as [|c s]; [congruence|].
  destruct (connected w); simpl; rewrite find_filter; unfold upi_key in Hf; rewrite Hf;
    reflexivity.
Qed.

Lemma get_upi_by_contract_not_found (s : jstr) (w : world) :
  s <> [] -> filter (upi_key (JStr s)) (upiIndex w) = [] ->
  fst (handle (get_upi_by_contract s) w []) =
  err 404 (u "UPI ID not found for the given contract ID").
Proof.
  intros Hs Hf.
  unfold handle, get_upi_by_contract, bind, ret, connectToDatabase, mongo, upi_findOne.
  destruct s as [|c s]; [congruence|].
  destruct (connected w); simpl; rewrite find_filter; unfold upi_key in Hf; rewrite Hf;
    reflexivity.
Qed.

Lemma get_upi_by_contract_same_filter (s : jstr) (w w' : world) :
  s <> [] -> filter (upi_key (JStr s)) (upiIndex w') = filter (upi_key (JStr s)) (upiIndex w) ->
  fst (handle (get_upi_by_contract s) w' []) = fst (handle (get_upi_by_contract s) w []).
Proof.
  intros Hs Hf.
  destruct (filter (upi_key (JStr s)) (upiIndex w)) as [|e rest] eqn:E.
  - rewrite !get_upi_by_contract_not_found; auto.
  - rewrite (get_upi_by_contract_found s w e rest), (get_upi_by_contract_found s w' e rest); auto.
Qed.

Lemma run_posts_inv (s : jstr) (reqs : list (body * list bool)) (w : world) :
  s <> [] -> upi_keys_unique w ->
  let '(tr, w') := run_posts reqs w in
  upi_keys_unique w' /\
  match last_success s tr with
  | Some b => exists i t, filter (upi_key (JStr s)) (upiIndex w') = [upi_entry_of s b i t]
  | None => filter (upi_key (JStr s)) (upiIndex w') = filter (upi_key (JStr s)) (upiIndex w)
  end.
Proof.
  intros Hs; revert w; induction reqs as [|[b fl] reqs IH]; intros w Hnd; simpl.
  - split; [assumption|reflexivity].
  - pose proof (post_payment_request_step s b w fl Hs Hnd) as Hstep.
    destruct (handle (post_payment_request b) w fl) as [r w1].
    destruct Hstep as [Hnd1 Hstep].
    specialize (IH w1 Hnd1).
    destruct (run_posts reqs w1) as [tr w2]; simpl.
    destruct IH as [Hnd2 IH]; split; [assumption|].
    destruct (last_success s tr) as [b'|]; [assumption|].
    destruct (Z.eqb (status r) 201 && carries s b).
    + destruct Hstep as (i & t & Hi); exists i, t; rewrite IH; assumption.
    + rewrite IH; assumption.
Qed.

(* ================================================================== *)
(** * Claims *)

(** ** C1: replace-upsert of the upiIndex, last successful writer wins *)

(** C1: along any sequence of [POST /api/payment-request] calls (each with
    any store faults), the upiIndex keeps at most one entry per
    contractRequestId; for a non-empty string [s], if some call carrying [s]
    succeeded (201), the only entry for [s] is exactly the document built
    from the most recent such call (fully replaced, not merged) and
    [GET /api/upi-id/contract/s] answers its upiId, payeeName and note;
    otherwise the lookup answers as before the sequence. *)
Theorem upi_index_last_write_wins (reqs : list (body * list bool)) (w : world) (s : jstr)
    (Hs : s <> []) (Hw : upi_keys_unique w) :
  let '(tr, w') := run_posts reqs w in
  upi_keys_unique w' /\
  match last_success s tr with
  | Some b =>
      (exists i t, filter (upi_key (JStr s)) (upiIndex w') = [upi_entry_of s b i t]) /\
      fst (handle (get_upi_by_contract s) w' []) =
      mkResponse 200 (JObj [
        ("message"%string, JV (JStr (u "UPI ID retrieved successfully")));
        ("contractRequestId"%string, JV (JStr s));
        ("upiId"%string, JV (val (field b "upiId")));
        ("payeeName"%string, JV (or_default (field b "payeeName") (JStr [])));
        ("note"%string, JV (or_default (field b "note") (JStr [])))])
  | None =>
      fst (handle (get_upi_by_contract s) w' []) = fst (handle (get_upi_by_contract s) w [])
  end.
Proof.
  pose proof (run_posts_inv s reqs w Hs Hw) as H.
  destruct (run_posts reqs w) as [tr w'].
  destruct H as [Hnd H]; split; [assumption|].
  destruct (last_success s tr) as [b|].
  - destruct H as (i & t & Hi). split; [exists i, t; assumption|].
    rewrite (get_upi_by_contract_found s w' _ [] Hs Hi); reflexivity.
  - apply get_upi_by_contract_same_filter; assumption.
Qed.

Lemma upi_index_last_write_wins_witness :
  (u "42" <> [] /\ upi_keys_unique empty_world) /\
  let '(tr, w') := run_posts [(pr_body "first@upi" 10 "42", []);
                              (pr_body "other@upi" 7 "43", []);
                              (pr_body "second@upi" 5 "42", [])] empty_world in
  upi_keys_unique w' /\
  match last_success (u "42") tr with
  | Some b =>
      (exists i t, filter (upi_key (JStr (u "42"))) (upiIndex w') = [upi_entry_of (u "42") b i t]) /\
      fst (handle (get_upi_by_contract (u "42")) w' []) =
      mkResponse 200 (JObj [
        ("message"%string, JV (JStr (u "UPI ID retrieved successfully")));
        ("contractRequestId"%string, JV (JStr (u "42")));
        ("upiId"%string, JV (val (field b "upiId")));
        ("payeeName"%string, JV (or_default (field b "payeeName") (JStr [])));
        ("note"%string, JV (or_default (field b "note") (JStr [])))])
  | None =>
      fst (handle (get_upi_by_contract (u "42")) w' []) =
      fst (handle (get_upi_by_contract (u "42")) empty_world [])
  end.
Proof.
  split; [split; [discriminate | constructor] |].
  apply upi_index_last_write_wins; [discriminate | constructor].
Defined.

(** ** Runs of [POST /api/payment-request] on a valid body *)

Section ValidPaymentRequest.
Variables (b : body) (a : Z) (w : world).
Hypothesis Hupi : truthy (field b "upiId") = true.
Hypothesis Hamount : field b "amount" = Some (JNum a).
Hypothesis Hpos : 0 < a.

Let Ha_truthy : truthy (field b "amount") = true.
Proof. rewrite Hamount; simpl; destruct a; [lia|reflexivity|lia]. Qed.

Let Ha_le : (a <=? 0) = false.
Proof. apply Z.leb_gt; assumption. Qed.

Ltac go :=
  unfold handle, post_payment_request, bind, ret, connectToDatabase, mongo, new_Date,
    pr_insertOne, upi_replaceOne_upsert;
  unfold connect_flags; destruct (connected w); simpl;
  rewrite ?Hupi, ?Ha_truthy, ?Hamount; simpl; rewrite ?Ha_le; simpl.

Lemma post_payment_request_no_fault :
  let '(r, w') := handle (post_payment_request b) w [] in
  status r = 201 /\
  paymentRequests w' = paymentRequests w ++ [new_payment_request b a (now w) (next_oid w)] /\
  upiIndex w' =
    (if truthy (field b "contractRequestId")
     then upsert_list (upi_key (val (field b "contractRequestId"))) (upi_doc b (now w))
            (S (next_oid w)) (upiIndex w)
     else upiIndex w).
Proof.
  go; destruct (truthy (field b "contractRequestId")); simpl;
    rewrite ?upiIndex_upsert_replace, ?paymentRequests_upsert_replace;
    repeat split; reflexivity.
Qed.

Lemma post_payment_request_insert_fault (rest : list bool) :
  let '(r, w') := handle (post_payment_request b) w (connect_flags w ++ true :: rest) in
  r = error500 /\ paymentRequests w' = paymentRequests w /\ upiIndex w' = upiIndex w.
Proof. go; repeat split; reflexivity. Qed.

Lemma post_payment_request_index_fault (rest : list bool) :
  truthy (field b "contractRequestId") = true ->
  let '(r, w') := handle (post_payment_request b) w (connect_flags w ++ false :: true :: rest) in
  r = error500 /\
  paymentRequests w' = paymentRequests w ++ [new_payment_request b a (now w) (next_oid w)] /\
  upiIndex w' = upiIndex w.
Proof. intro Hc. go; rewrite Hc; simpl; repeat split; reflexivity. Qed.
End ValidPaymentRequest.

(** ** C2: an index entry is written exactly for truthy contract ids *)

(** C2: a [POST /api/payment-request] call (with any store faults) that
    answers 201 with a truthy contractRequestId leaves an entry built from its
    body in the upiIndex; a call whose contractRequestId is absent or falsy
    leaves the upiIndex unchanged, so a later lookup of any non-empty
    identifier that had no entry answers 404; and a valid body without store
    faults is answered 201 whatever its contractRequestId. *)
Theorem payment_request_index_iff_contract_id (b : body) (w : world) (fl : list bool) :
  let '(r, w') := handle (post_payment_request b) w fl in
  (status r = 201 -> truthy (field b "contractRequestId") = true ->
     exists t i, In (upi_doc b t i) (upiIndex w')) /\
  (truthy (field b "contractRequestId") = false ->
     upiIndex w' = upiIndex w /\
     forall s, s <> [] -> filter (upi_key (JStr s)) (upiIndex w) = [] ->
       fst (handle (get_upi_by_contract s) w' []) =
       err 404 (u "UPI ID not found for the given contract ID")) /\
  (valid_payment_body b -> fl = [] -> status r = 201).
Proof.
  pose proof (post_payment_request_upiIndex b w fl) as Hstep.
  assert (Hvalid : valid_payment_body b -> fl = [] ->
                   status (fst (handle (post_payment_request b) w fl)) = 201).
  { intros (Hu & a & Ha & Hp) ->.
    pose proof (post_payment_request_no_fault b a w Hu Ha Hp) as H.
    destruct (handle (post_payment_request b) w []) as [r w']; apply H. }
  destruct (handle (post_payment_request b) w fl) as [r w']; simpl in Hvalid.
  split; [|split; [|exact Hvalid]].
  - intros H201 Hc.
    destruct Hstep as [(_ & _ & n & t & ->) | [(_ & Hc' & _) | (Hn & _)]];
      [| congruence | congruence].
    destruct (upsert_list_in (upi_key (val (field b "contractRequestId"))) (upi_doc b t) n
                (upiIndex w)) as [i Hi].
    exists t, i; exact Hi.
  - intros Hc.
    assert (Hw : upiIndex w' = upiIndex w).
    { destruct Hstep as [(_ & Hc' & _) | [(_ & _ & H) | (_ & H)]]; [congruence | exact H | exact H]. }
    split; [exact Hw|].
    intros s Hs Hf. apply get_upi_by_contract_not_found; [assumption|]. rewrite Hw; exact Hf.
Qed.

(** ** C3: the index write follows the insert, and its failure is a 500 *)

(** C3: for a valid body with a truthy contractRequestId, if the insert into
    paymentRequests fails, the upiIndex is not written (and the answer is
    500); if the insert succeeds and the upiIndex write then fails, the
    answer is the 500 error, not 201, and the inserted payment request stays
    in paymentRequests (no rollback) while the upiIndex is unchanged. *)
Theorem payment_request_index_fault_is_500 (b : body) (a : Z) (w : world) (rest : list bool)
    (Hupi : truthy (field b "upiId") = true)
    (Hamount : field b "amount" = Some (JNum a)) (Hpos : 0 < a)
    (Hc : truthy (field b "contractRequestId") = true) :
  (let '(r, w') := handle (post_payment_request b) w (connect_flags w ++ true :: rest) in
   r = error500 /\ paymentRequests w' = paymentRequests w /\ upiIndex w' = upiIndex w) /\
  (let '(r, w') := handle (post_payment_request b) w (connect_flags w ++ false :: true :: rest) in
   r = error500 /\
   paymentRequests w' = paymentRequests w ++ [new_payment_request b a (now w) (next_oid w)] /\
   upiIndex w' = upiIndex w).
Proof.
  split.
  - apply (post_payment_request_insert_fault b a w); assumption.
  - apply (post_payment_request_index_fault b a w); assumption.
Qed.

Lemma payment_request_index_fault_is_500_witness :
  (truthy (field (pr_body "a@upi" 10 "7") "upiId") = true /\
   field (pr_body "a@upi" 10 "7") "amount" = Some (JNum 10) /\ 0 < 10 /\
   truthy (field (pr_body "a@upi" 10 "7") "contractRequestId") = true) /\
  (let '(r, w') := handle (post_payment_request (pr_body "a@upi" 10 "7")) empty_world
                     (connect_flags empty_world ++ [true]) in
   r = error500 /\ paymentRequests w' = paymentRequests empty_world /\
   upiIndex w' = upiIndex empty_world) /\
  (let '(r, w') := handle (post_payment_request (pr_body "a@upi" 10 "7")) empty_world
                     (connect_flags empty_world ++ [false; true]) in
   r = error500 /\
   paymentRequests w' = paymentRequests empty_world ++
     [new_payment_request (pr_body "a@upi" 10 "7") 10 (now empty_world) (next_oid empty_world)] /\
   upiIndex w' = upiIndex empty_world).
Proof.
  split; [repeat split; reflexivity|].
  apply (payment_request_index_fault_is_500 (pr_body "a@upi" 10 "7") 10 empty_world []);
    reflexivity.
Defined.

(** ** [POST /api/login-wallet] on a well-formed address *)

Lemma eth_regex_match_length (s : jstr) :
  eth_regex_match s = true -> List.length s = 42%nat.
Proof.
  unfold eth_regex_match.
  destruct s as [|c1 [|c2 s]]; try discriminate.
  intro H; apply andb_prop in H as [H _]; apply andb_prop in H as [_ H].
  apply Nat.eqb_eq in H; simpl; rewrite H; reflexivity.
Qed.

Lemma shape_check_eq (s : jstr) :
  negb (starts_with_0x s) || negb (Nat.eqb (List.length s) 132) = negb (signature_shape_ok s).
Proof. unfold signature_shape_ok; destruct (starts_with_0x s), (Nat.eqb _ _); reflexivity. Qed.

Lemma post_login_wallet_found (addr : jstr) (sig : jval) (w : world) (x : user) :
  eth_regex_match addr = true -> truthy (Some sig) = true ->
  find (holds_address addr) (users w) = Some x ->
  fst (handle (post_login_wallet (login_body addr sig)) w []) =
  match sig with
  | JStr s => if signature_shape_ok s then login_wallet_ok x
              else err 401 (u "Invalid signature format")
  | _ => error500
  end.
Proof.
  intros Hre Hsig Hfind.
  unfold handle, post_login_wallet, bind, ret, throw, connectToDatabase, mongo, users_findOne.
  unfold login_body, field; simpl.
  unfold holds_address in Hfind.
  unfold eth_regex_test; simpl js_ToString.
  destruct sig as [|bsig|z|s]; simpl in Hsig; try discriminate; [subst bsig| |];
  destruct (connected w); simpl; rewrite ?(eth_regex_match_length _ Hre), ?Hsig, ?Hre;
    simpl; rewrite ?Hre; simpl; rewrite Hfind; try reflexivity;
    rewrite shape_check_eq; destruct (signature_shape_ok s); reflexivity.
Qed.

Lemma find_in_exists {A} (p : A -> bool) l x :
  In x l -> p x = true -> exists y, find p l = Some y.
Proof.
  induction l as [|z l IH]; intros Hin Hp; [destruct Hin|].
  simpl. destruct (p z) eqn:Hz; [eexists; reflexivity|].
  destruct Hin as [->|Hin]; [congruence|]. apply IH; assumption.
Qed.

Lemma post_login_wallet_falsy_signature (b : body) (w : world) :
  truthy (field b "signature") = false ->
  fst (handle (post_login_wallet b) w []) = err 400 (u "ETH address and signature are required").
Proof.
  intro Hsig.
  unfold handle, post_login_wallet, bind, ret, connectToDatabase, mongo; cbv zeta.
  rewrite Hsig, orb_true_r.
  destruct (connected w); reflexivity.
Qed.

(** ** C4: the wallet login checks the signature's shape only *)

(** The empty signature string fails the shape check, yet it is answered
    400 by the required-fields check, not 401. *)
Lemma login_wallet_shape_only_counterexample :
  holds_address sample_addr sample_user = true /\ In sample_user (users sample_world) /\
  signature_shape_ok [] = false /\
  status (fst (handle (post_login_wallet (login_body sample_addr (JStr []))) sample_world []))
  = 400.
Proof. repeat split; try reflexivity. left; reflexivity. Qed.

(** C4 (amended): for a well-formed address registered to a user, the
    login outcome depends on a signature string only through its shape: any
    two signature strings starting with "0x" of length 132 give the same 200
    answer, and any non-empty signature string failing that shape gives 401.
    An absent or empty (more generally, falsy) signature is refused earlier
    with 400 by the required-fields check.  No cryptographic check takes
    part. *)
Theorem login_wallet_signature_shape_only (addr : jstr) (w : world) (x : user)
    (Hre : eth_regex_match addr = true) (Hin : In x (users w))
    (Hx : holds_address addr x = true) :
  (forall s1 s2, signature_shape_ok s1 = true -> signature_shape_ok s2 = true ->
     fst (handle (post_login_wallet (login_body addr (JStr s1))) w []) =
     fst (handle (post_login_wallet (login_body addr (JStr s2))) w []) /\
     status (fst (handle (post_login_wallet (login_body addr (JStr s1))) w [])) = 200) /\
  (forall s, s <> [] -> signature_shape_ok s = false ->
     status (fst (handle (post_login_wallet (login_body addr (JStr s))) w [])) = 401) /\
  (forall b, field b "ethAddress" = Some (JStr addr) -> truthy (field b "signature") = false ->
     fst (handle (post_login_wallet b) w []) =
     err 400 (u "ETH address and signature are required")).
Proof.
  destruct (find_in_exists _ _ _ Hin Hx) as [y Hy].
  assert (Hs : forall s, s <> [] -> truthy (Some (JStr s)) = true).
  { intros [|c s] H; [congruence|reflexivity]. }
  assert (Hok : forall s, signature_shape_ok s = true -> s <> []).
  { intros [|c s] H; [discriminate|congruence]. }
  split; [|split].
  - intros s1 s2 H1 H2.
    rewrite !(post_login_wallet_found addr _ w y Hre); auto.
    rewrite H1, H2; split; reflexivity.
  - intros s Hne Hbad.
    rewrite (post_login_wallet_found addr _ w y Hre); auto.
    rewrite Hbad; reflexivity.
  - intros b _ Hsig. apply post_login_wallet_falsy_signature; exact Hsig.
Qed.

Lemma login_wallet_signature_shape_only_witness :
  (eth_regex_match sample_addr = true /\ In sample_user (users sample_world) /\
   holds_address sample_addr sample_user = true) /\
  status (fst (handle (post_login_wallet
                 (login_body sample_addr (JStr (u "0x" ++ repeat 97%N 130)))) sample_world [])) = 200.
Proof.
  split; [split; [reflexivity | split; [left; reflexivity | reflexivity]]|].
  destruct (login_wallet_signature_shape_only sample_addr sample_world sample_user
              eq_refl (or_introl eq_refl) eq_refl) as [H _].
  apply (H (u "0x" ++ repeat 97%N 130) (u "0x" ++ repeat 97%N 130)); reflexivity.
Defined.

(** ** [POST /api/update-wallet] *)

Lemma update_first_find {A} (p : A -> bool) f l :
  match find p l with
  | Some x => exists l', update_first p f l = Some (f x, l')
  | None => update_first p f l = None
  end.
Proof.
  induction l as [|z l IH]; simpl; [reflexivity|].
  destruct (p z); [eexists; reflexivity|].
  destruct (find p l) as [x|].
  - destruct IH as [l' ->]; eexists; reflexivity.
  - rewrite IH; reflexivity.
Qed.

(** The fault-free run of the handler on a well-formed body, for either
    driver convention. *)
Lemma post_update_wallet_with_run (d : driver) (addr uname : jstr) (w : world) :
  eth_regex_match addr = true -> uname <> [] ->
  let '(r, w') := handle (post_update_wallet_with d (update_body addr uname)) w [] in
  match find (fun x => holds_address addr x && negb (has_username uname x)) (users w) with
  | Some _ => status r = 409 /\ users w' = users w
  | None =>
      match find (has_username uname) (users w) with
      | None =>
          r = match d with
              | ModifyResultDriver => err 404 (u "User not found with username: " ++ uname)
              | DocumentDriver => error500
              end /\ users w' = users w
      | Some x =>
          r = match d with
              | ModifyResultDriver => update_wallet_ok (set_wallet (toLowerCase addr) (now w) x)
              | DocumentDriver => err 404 (u "User not found with username: " ++ uname)
              end /\
          exists l', update_first (has_username uname) (set_wallet (toLowerCase addr) (now w))
                                  (users w) = Some (set_wallet (toLowerCase addr) (now w) x, l')
                     /\ users w' = l'
      end
  end.
Proof.
  intros Hre Hu.
  destruct uname as [|c uname]; [congruence|].
  pose proof (update_first_find (has_username (c :: uname))
                (set_wallet (toLowerCase addr) (now w)) (users w)) as Hupd.
  destruct (find (fun x => holds_address addr x && negb (has_username (c :: uname) x)) (users w))
    as [ew|] eqn:Hew;
  [| destruct (find (has_username (c :: uname)) (users w)) as [x|] eqn:Hx];
  unfold handle, post_update_wallet_with, result_value, bind, ret, throw, connectToDatabase,
    mongo, new_Date, users_findOne, users_findOneAndUpdate, update_body, field;
  unfold eth_regex_test; simpl js_ToString;
  unfold holds_address, has_username in *;
  destruct (connected w); simpl; rewrite ?(eth_regex_match_length _ Hre); simpl; rewrite Hre;
    simpl; rewrite Hew; simpl; try (split; reflexivity).
  all: try (destruct Hupd as [l' Hl']; rewrite Hl'; destruct d; simpl).
  all: try (split; [reflexivity | exists l'; split; reflexivity]).
  all: rewrite Hupd; destruct d; simpl; split; reflexivity.
Qed.

(** The fault-free run with a driver of versions 4 and 5. *)
Lemma post_update_wallet_run (addr uname : jstr) (w : world) :
  eth_regex_match addr = true -> uname <> [] ->
  let '(r, w') := handle (post_update_wallet (update_body addr uname)) w [] in
  match find (fun x => holds_address addr x && negb (has_username uname x)) (users w) with
  | Some _ => status r = 409 /\ users w' = users w
  | None =>
      match find (has_username uname) (users w) with
      | None => r = err 404 (u "User not found with username: " ++ uname) /\ users w' = users w
      | Some x =>
          r = update_wallet_ok (set_wallet (toLowerCase addr) (now w) x) /\
          exists l', update_first (has_username uname) (set_wallet (toLowerCase addr) (now w))
                                  (users w) = Some (set_wallet (toLowerCase addr) (now w) x, l')
                     /\ users w' = l'
      end
  end.
Proof. exact (post_update_wallet_with_run ModifyResultDriver addr uname w). Qed.

Lemma find_none_forall {A} (p : A -> bool) l :
  (forall y, In y l -> p y = false) -> find p l = None.
Proof.
  induction l as [|z l IH]; intro H; simpl; [reflexivity|].
  rewrite (H z (or_introl eq_refl)). apply IH; intros y Hy; apply H; right; assumption.
Qed.

(** ** C5: outcomes of [POST /api/update-wallet] *)




(** ** [GET /api/payment-requests] *)

Lemma insert_desc_perm (p : payment_request) l : Permutation (insert_desc p l) (p :: l).
Proof.
  induction l as [|q l IH]; simpl; [reflexivity|].
  destruct (pr_createdAt q <? pr_createdAt p); [reflexivity|].
  rewrite IH; apply perm_swap.
Qed.

Lemma sort_createdAt_desc_perm l : Permutation (sort_createdAt_desc l) l.
Proof.
  induction l as [|p l IH]; simpl; [reflexivity|].
  rewrite insert_desc_perm, IH; reflexivity.
Qed.

Lemma insert_desc_hd (p q : payment_request) l :
  newer_or_same q p -> HdRel newer_or_same q l -> HdRel newer_or_same q (insert_desc p l).
Proof.
  intros Hqp Hl. destruct l as [|r l]; simpl; [constructor; assumption|].
  destruct (pr_createdAt r <? pr_createdAt p); constructor; [assumption|].
  inversion Hl; assumption.
Qed.

Lemma insert_desc_sorted (p : payment_request) l :
  Sorted newer_or_same l -> Sorted newer_or_same (insert_desc p l).
Proof.
  induction l as [|q l IH]; intro Hs; simpl.
  - repeat constructor.
  - destruct (pr_createdAt q <? pr_createdAt p) eqn:E.
    + constructor; [assumption|]. constructor. unfold newer_or_same.
      apply Z.ltb_lt in E; lia.
    + apply Sorted_inv in Hs as [Hs Hhd].
      constructor; [apply IH; assumption|].
      apply insert_desc_hd; [|assumption].
      unfold newer_or_same; apply Z.ltb_ge in E; lia.
Qed.

Lemma sort_createdAt_desc_sorted l : Sorted newer_or_same (sort_createdAt_desc l).
Proof.
  induction l as [|p l IH]; simpl; [constructor|]. apply insert_desc_sorted; assumption.
Qed.

(** ** C6: the listing returns the pending requests, newest first *)

(** C6: for every state of the store, the fault-free
    [GET /api/payment-requests] answers 200 with the listing projection of a
    list that is a permutation of exactly the documents whose status is
    'pending', ordered by createdAt descending. *)
Theorem payment_requests_pending_newest_first (w : world) :
  exists l,
    fst (handle get_payment_requests w []) =
    mkResponse 200 (JObj [
      ("message"%string, JV (JStr (u "Payment requests retrieved successfully")));
      ("paymentRequests"%string, JArr (map format_listed l))]) /\
    Permutation l (filter is_pending (paymentRequests w)) /\
    (forall p, In p l <-> In p (paymentRequests w) /\ pr_status p = JStr (u "pending")) /\
    Sorted newer_or_same l.
Proof.
  exists (sort_createdAt_desc (filter is_pending (paymentRequests w))).
  split; [|split; [|split]].
  - unfold handle, get_payment_requests, bind, ret, connectToDatabase, mongo, pr_find.
    destruct (connected w); reflexivity.
  - apply sort_createdAt_desc_perm.
  - intro p. split.
    + intro H. apply (Permutation_in _ (sort_createdAt_desc_perm _)) in H.
      apply filter_In in H as [H1 H2]. split; [assumption|].
      apply jval_eqb_eq; exact H2.
    + intros [H1 H2]. apply (Permutation_in _ (Permutation_sym (sort_createdAt_desc_perm _))).
      apply filter_In; split; [assumption|]. unfold is_pending; rewrite H2; apply jval_eqb_refl.
  - apply sort_createdAt_desc_sorted.
Qed.

(** ** [POST /api/signup] *)

Lemma post_signup_run (uname : jval) (pwd : jstr) (w : world) :
  truthy (Some uname) = true -> (6 <= List.length pwd)%nat ->
  let '(r, w') := handle (post_signup (signup_body uname pwd)) w [] in
  match find (fun x => jval_eqb (username x) uname) (users w) with
  | Some _ => r = err 409 (u "Username already exists") /\ w' = (if connected w then w else set_connected w)
  | None =>
      r = mkResponse 201 (JObj [
            ("message"%string, JV (JStr (u "User created successfully")));
            ("user"%string, JObj [("id"%string, JOid (next_oid w));
                                  ("username"%string, JV uname);
                                  ("email"%string, JV (JStr []));
                                  ("createdAt"%string, JDate (now w))])]) /\
      users w' = users w ++ [signup_user uname pwd (next_oid w) (now w)]
  end.
Proof.
  intros Hu Hp.
  assert (Hpt : negb (Nat.eqb (List.length pwd) 0) = true).
  { destruct pwd; [simpl in Hp; lia|reflexivity]. }
  assert (Hlt : Nat.ltb (List.length pwd) 6 = false) by (apply Nat.ltb_ge; assumption).
  unfold handle, post_signup, bind, ret, connectToDatabase, mongo, new_Date,
    users_findOne, users_insertOne, signup_body, field, length_lt, js_length.
  destruct uname as [|bu|zu|su]; simpl in Hu; try discriminate; [subst bu| |];
  destruct (connected w); simpl; rewrite ?Hu; simpl;
    rewrite Hpt; simpl; rewrite Hlt; simpl;
    destruct (find _ (users w)); split; reflexivity.
Qed.

(** ** C7: a second signup with the same username is a conflict *)

(** C7: from a store where no user has the username, two fault-free
    signups with that (truthy) username and passwords of length at least 6:
    the first answers 201 with a user envelope carrying no password property
    and appends exactly one user; the second answers 409 and leaves the
    users collection unchanged. *)
Theorem signup_twice_conflict (uname : jval) (pwd1 pwd2 : jstr) (w : world)
    (Hu : truthy (Some uname) = true)
    (Hp1 : (6 <= List.length pwd1)%nat) (Hp2 : (6 <= List.length pwd2)%nat)
    (Hfresh : find (fun x => jval_eqb (username x) uname) (users w) = None) :
  let '(r1, w1) := handle (post_signup (signup_body uname pwd1)) w [] in
  let '(r2, w2) := handle (post_signup (signup_body uname pwd2)) w1 [] in
  status r1 = 201 /\ json_has_key "password" (rbody r1) = false /\
  users w1 = users w ++ [signup_user uname pwd1 (next_oid w) (now w)] /\
  status r2 = 409 /\ users w2 = users w1.
Proof.
  pose proof (post_signup_run uname pwd1 w Hu Hp1) as H1.
  destruct (handle (post_signup (signup_body uname pwd1)) w []) as [r1 w1].
  rewrite Hfresh in H1. destruct H1 as [-> Hw1].
  pose proof (post_signup_run uname pwd2 w1 Hu Hp2) as H2.
  destruct (handle (post_signup (signup_body uname pwd2)) w1 []) as [r2 w2].
  assert (Hfind : exists y, find (fun x => jval_eqb (username x) uname) (users w1) = Some y).
  { apply (find_in_exists _ _ (signup_user uname pwd1 (next_oid w) (now w))).
    - rewrite Hw1; apply in_or_app; right; left; reflexivity.
    - apply jval_eqb_refl. }
  destruct Hfind as [y Hy]; rewrite Hy in H2; destruct H2 as [-> Hw2].
  split; [reflexivity|]. split; [reflexivity|]. split; [exact Hw1|].
  split; [reflexivity|]. rewrite Hw2; destruct (connected w1); reflexivity.
Qed.

Lemma signup_twice_conflict_witness :
  (truthy (Some (JStr (u "alice"))) = true /\ (6 <= List.length (u "secret1"))%nat /\
   (6 <= List.length (u "secret2"))%nat /\
   find (fun x => jval_eqb (username x) (JStr (u "alice"))) (users empty_world) = None) /\
  let '(r1, w1) := handle (post_signup (signup_body (JStr (u "alice")) (u "secret1"))) empty_world [] in
  let '(r2, w2) := handle (post_signup (signup_body (JStr (u "alice")) (u "secret2"))) w1 [] in
  status r1 = 201 /\ json_has_key "password" (rbody r1) = false /\
  users w1 = users empty_world ++
    [signup_user (JStr (u "alice")) (u "secret1") (next_oid empty_world) (now empty_world)] /\
  status r2 = 409 /\ users w2 = users w1.
Proof.
  split; [repeat split; try reflexivity; vm_compute; lia|].
  apply signup_twice_conflict; [reflexivity | vm_compute; lia | vm_compute; lia | reflexivity].
Defined.

(** ** [POST /api/register-wallet] and [POST /api/login-wallet] *)

Lemma handle_ok (m : M response) (w : world) (fl : list bool) :
  status (fst (handle m w fl)) <> 500 ->
  exists fl', m (w, fl) = (Ok (fst (handle m w fl)), (snd (handle m w fl), fl')).
Proof.
  unfold handle. destruct (m (w, fl)) as [[r|e] [w' fl']]; simpl; intro H.
  - exists fl'; reflexivity.
  - exfalso; apply H; reflexivity.
Qed.

Lemma bind_ok {A B} (m : M A) (k : A -> M B) s r s'' :
  bind m k s = (Ok r, s'') -> exists a s', m s = (Ok a, s') /\ k a s' = (Ok r, s'').
Proof.
  unfold bind. destruct (m s) as [[a|e] s']; intro H; [|discriminate].
  exists a, s'; split; [reflexivity|exact H].
Qed.

Lemma mongo_ok {A} (f : world -> A * world) w fl a w' fl' :
  mongo f (w, fl) = (Ok a, (w', fl')) -> f w = (a, w').
Proof.
  unfold mongo. destruct fl as [|[] fl]; [| discriminate |];
    destruct (f w) as [a0 w0]; intro H; injection H; intros; subst; reflexivity.
Qed.

Lemma connect_ok w fl a w' fl' :
  connectToDatabase (w, fl) = (Ok a, (w', fl')) -> users w' = users w.
Proof.
  unfold connectToDatabase. destruct (connected w).
  - intro H; injection H; intros; subst; reflexivity.
  - intro H; apply mongo_ok in H; injection H; intros; subst; reflexivity.
Qed.

(** One step of a successful run, read off the equation [H] of the run. *)
Ltac step_ok H :=
  lazymatch type of H with
  | (if ?c then _ else _) _ = _ => destruct c eqn:?
  | (match ?x with _ => _ end) _ = _ => destruct x eqn:?
  | ret _ _ = _ => unfold ret in H; injection H as <- <-
  | throw _ _ = _ => discriminate H
  | bind _ _ _ = _ =>
      let a := fresh "a" in let w := fresh "w" in let fl := fresh "fl" in
      let Hm := fresh "Hm" in
      apply bind_ok in H as (a & [w fl] & Hm & H);
      unfold users_findOne, users_insertOne, new_Date in Hm;
      first [ apply mongo_ok in Hm; injection Hm as <- <-
            | injection Hm as <- <- <-
            | apply mongo_ok in Hm
            | apply connect_ok in Hm ]
  end.

Lemma post_register_wallet_success (addr sig : jstr) (uname : jval) (w : world) (fl : list bool) :
  status (fst (handle (post_register_wallet (register_body addr sig uname)) w fl)) = 201 ->
  eth_regex_match addr = true /\ find (holds_address addr) (users w) = None /\
  exists id t, users (snd (handle (post_register_wallet (register_body addr sig uname)) w fl))
               = users w ++ [wallet_user addr uname id t].
Proof.
  intro H.
  destruct (handle_ok (post_register_wallet (register_body addr sig uname)) w fl)
    as [fl' Hm]; [rewrite H; discriminate|].
  revert H Hm.
  generalize (fst (handle (post_register_wallet (register_body addr sig uname)) w fl)) as r.
  generalize (snd (handle (post_register_wallet (register_body addr sig uname)) w fl)) as w'.
  intros w' r H Hm.
  unfold post_register_wallet in Hm.
  apply bind_ok in Hm as (a & [w1 fl1] & Hc & Hk). apply connect_ok in Hc.
  unfold register_body, field in Hk. simpl in Hk.
  repeat (step_ok Hk; simpl in *; try discriminate).
  rewrite Hc in *. split; [|split].
  - unfold eth_regex_test in *; simpl in *; destruct (eth_regex_match addr);
      [reflexivity|discriminate].
  - exact Heqo0.
  - exists (next_oid w1), (now w1); reflexivity.
Qed.

Lemma find_app_last {A} (p : A -> bool) (l : list A) (x : A) :
  find p l = None -> p x = true -> find p (l ++ [x]) = Some x.
Proof.
  induction l as [|y l IH]; simpl; intros Hn Hx; [rewrite Hx; reflexivity|].
  destruct (p y); [discriminate|]. apply IH; assumption.
Qed.

Lemma post_register_wallet_bad_address (b : body) (w : world) :
  eth_regex_test (field b "ethAddress") = false ->
  status (fst (handle (post_register_wallet b) w [])) = 400.
Proof.
  intro H.
  cbv [handle post_register_wallet bind ret connectToDatabase mongo]. rewrite H.
  destruct (connected w);
    destruct (negb (truthy (field b "ethAddress")) || negb (truthy (field b "signature"))
              || negb (truthy (field b "username"))); reflexivity.
Qed.

Lemma post_login_wallet_bad_address (b : body) (w : world) :
  eth_regex_test (field b "ethAddress") = false ->
  status (fst (handle (post_login_wallet b) w [])) = 400.
Proof.
  intro H.
  cbv [handle post_login_wallet bind ret connectToDatabase mongo]. rewrite H.
  destruct (connected w);
    destruct (negb (truthy (field b "ethAddress")) || negb (truthy (field b "signature")));
    reflexivity.
Qed.

(** ** C8: wallet addresses are stored and compared lowercased *)

(** C8: after a successful [POST /api/register-wallet] (any store faults)
    with address [addr], the users collection gained exactly the new user,
    whose stored address is [addr] lowercased; a fault-free
    [POST /api/login-wallet] with any address [addr'] that matches
    [/^0x[a-fA-F0-9]{40}$/] and lowercases to the same string, and a
    signature of the valid shape, answers 200 with that very user.  Any body
    whose [ethAddress] fails the pattern is answered 400 by both endpoints
    (fault-free). *)
Theorem wallet_address_case_insensitive (addr addr' sig sig' : jstr) (uname : jval)
    (w : world) (fl : list bool)
    (Hreg : status (fst (handle (post_register_wallet (register_body addr sig uname)) w fl)) = 201)
    (Hre' : eth_regex_match addr' = true)
    (Hcase : toLowerCase addr' = toLowerCase addr)
    (Hsig : signature_shape_ok sig' = true) :
  (let w' := snd (handle (post_register_wallet (register_body addr sig uname)) w fl) in
   exists id t,
     users w' = users w ++ [wallet_user addr uname id t] /\
     ethAddress (wallet_user addr uname id t) = Some (JStr (toLowerCase addr)) /\
     fst (handle (post_login_wallet (login_body addr' (JStr sig'))) w' []) =
       login_wallet_ok (wallet_user addr uname id t)) /\
  (forall (b : body) (v : world), eth_regex_test (field b "ethAddress") = false ->
     status (fst (handle (post_register_wallet b) v [])) = 400 /\
     status (fst (handle (post_login_wallet b) v [])) = 400).
Proof.
  split.
  - destruct (post_register_wallet_success addr sig uname w fl Hreg)
      as (_ & Hnone & id & t & Hw').
    cbv zeta. exists id, t. split; [exact Hw'|]. split; [reflexivity|].
    assert (Htr : truthy (Some (JStr sig')) = true).
    { unfold signature_shape_ok in Hsig. apply andb_prop in Hsig as [_ Hl].
      apply Nat.eqb_eq in Hl. simpl. rewrite Hl. reflexivity. }
    rewrite (post_login_wallet_found addr' (JStr sig') _ (wallet_user addr uname id t) Hre' Htr).
    + rewrite Hsig. reflexivity.
    + rewrite Hw'. apply find_app_last.
      * unfold holds_address. rewrite Hcase. exact Hnone.
      * unfold holds_address, wallet_user; cbn [ethAddress]. rewrite Hcase. apply jval_eqb_refl.
  - intros b v Hb. split.
    + apply post_register_wallet_bad_address; exact Hb.
    + apply post_login_wallet_bad_address; exact Hb.
Qed.

Lemma wallet_address_case_insensitive_witness :
  (status (fst (handle (post_register_wallet
      (register_body sample_addr sample_sig (JStr (u "carol")))) empty_world [])) = 201 /\
   eth_regex_match sample_addr_variant = true /\
   toLowerCase sample_addr_variant = toLowerCase sample_addr /\
   signature_shape_ok sample_sig = true) /\
  ((let w' := snd (handle (post_register_wallet
                  (register_body sample_addr sample_sig (JStr (u "carol")))) empty_world []) in
    exists id t,
      users w' = users empty_world ++ [wallet_user sample_addr (JStr (u "carol")) id t] /\
      ethAddress (wallet_user sample_addr (JStr (u "carol")) id t)
        = Some (JStr (toLowerCase sample_addr)) /\
      fst (handle (post_login_wallet (login_body sample_addr_variant (JStr sample_sig))) w' []) =
        login_wallet_ok (wallet_user sample_addr (JStr (u "carol")) id t)) /\
   (forall (b : body) (v : world), eth_regex_test (field b "ethAddress") = false ->
      status (fst (handle (post_register_wallet b) v [])) = 400 /\
      status (fst (handle (post_login_wallet b) v [])) = 400)).
Proof.
  split; [repeat split; vm_compute; reflexivity|].
  apply (wallet_address_case_insensitive sample_addr sample_addr_variant sample_sig sample_sig
           (JStr (u "carol")) empty_world []); vm_compute; reflexivity.
Defined.

(** ** C9: a successful [POST /api/update-wallet] changes one user's wallet fields only *)

(** C9: when [POST /api/update-wallet] answers 200 (under any store
    faults), the users collection is [pre ++ x :: post] before and
    [pre ++ x' :: post] after, where [x] is the first user with the body's
    username; [x'] is the document returned, and it has the same identifier,
    username, password, email and creation time as [x], differing at most in
    [ethAddress] and [updatedAt]; all other users are unchanged. *)
Theorem update_wallet_frame (b : body) (w : world) (fl : list bool) :
  status (fst (handle (post_update_wallet b) w fl)) = 200 ->
  exists pre x x' post,
    users w = pre ++ x :: post /\
    filter (fun y => jval_eqb (username y) (val (field b "username"))) pre = [] /\
    jval_eqb (username x) (val (field b "username")) = true /\
    users (snd (handle (post_update_wallet b) w fl)) = pre ++ x' :: post /\
    fst (handle (post_update_wallet b) w fl) = update_wallet_ok x' /\
    u_id x' = u_id x /\ username x' = username x /\ password x' = password x /\
    email x' = email x /\ createdAt x' = createdAt x /\
    (exists a t, ethAddress x' = Some (JStr a) /\ updatedAt x' = Some t).
Proof.
  intro H.
  destruct (handle_ok (post_update_wallet b) w fl) as [fl' Hm]; [rewrite H; discriminate|].
  revert H Hm.
  generalize (fst (handle (post_update_wallet b) w fl)) as r.
  generalize (snd (handle (post_update_wallet b) w fl)) as w'.
  intros w' r H Hm.
  unfold post_update_wallet, post_update_wallet_with, result_value in Hm.
  apply bind_ok in Hm as (a & [w1 fl1] & Hc & Hk). apply connect_ok in Hc.
  cbv zeta in Hk.
  repeat (step_ok Hk; simpl in *; try discriminate).
  subst.
  match type of Hm with
  | match ?e with _ => _ end = _ => destruct e as [[y l]|] eqn:Hupd; [|discriminate]
  end.
  injection Hm as -> <-.
  apply update_first_some in Hupd as (pre & x & post & Hl & Hpre & Hx & -> & ->).
  rewrite Hc in Hl.
  exists pre, x, (set_wallet (toLowerCase s) (now w1) x), post.
  repeat split; try assumption; try reflexivity.
  exists (toLowerCase s), (now w1); split; reflexivity.
Qed.

Lemma update_wallet_frame_witness :
  status (fst (handle (post_update_wallet (update_body sample_addr (u "bob"))) sample_world [])) = 200 /\
  exists pre x x' post,
    users sample_world = pre ++ x :: post /\
    filter (fun y => jval_eqb (username y) (val (field (update_body sample_addr (u "bob")) "username"))) pre = [] /\
    jval_eqb (username x) (val (field (update_body sample_addr (u "bob")) "username")) = true /\
    users (snd (handle (post_update_wallet (update_body sample_addr (u "bob"))) sample_world [])) = pre ++ x' :: post /\
    fst (handle (post_update_wallet (update_body sample_addr (u "bob"))) sample_world []) = update_wallet_ok x' /\
    u_id x' = u_id x /\ username x' = username x /\ password x' = password x /\
    email x' = email x /\ createdAt x' = createdAt x /\
    (exists a t, ethAddress x' = Some (JStr a) /\ updatedAt x' = Some t).
Proof.
  split; [vm_compute; reflexivity|].
  apply update_wallet_frame; vm_compute; reflexivity.
Defined.

(** ** C10: no answer of the user endpoints carries a password *)

(** C10: for each of [POST /api/signup], [/api/login], [/api/login-wallet],
    [/api/update-wallet] and [/api/register-wallet], on any body, store and
    store faults, the JSON answer has no [password] property at any depth,
    and a 200 or 201 answer is [{ message, user }] whose [user] has only the
    properties id, username, email, ethAddress and createdAt. *)
Theorem user_responses_hide_password (h : body -> M response) (b : body) (w : world)
    (fl : list bool) (Hh : In h user_endpoints) :
  let r := fst (handle (h b) w fl) in
  json_has_key "password" (rbody r) = false /\
  (status r = 200 \/ status r = 201 -> user_envelope_ok (rbody r) = true).
Proof.
  cbv zeta. unfold handle.
  destruct (h b (w, fl)) as [[r|e] [w' fl']] eqn:Hm; simpl;
    [| split; [reflexivity | intros [Hs|Hs]; discriminate]].
  simpl in Hh.
  destruct Hh as [<-|[<-|[<-|[<-|[<-|[]]]]]];
    [ unfold post_signup in Hm | unfold post_login in Hm | unfold post_login_wallet in Hm
    | unfold post_update_wallet, post_update_wallet_with, result_value in Hm | unfold post_register_wallet in Hm ];
    cbv zeta in Hm; repeat (step_ok Hm; simpl in *; try discriminate).
  all: repeat match goal with |- context [ethAddress ?x] => destruct (ethAddress x) end.
  all: split; [reflexivity | intros [Hs|Hs]; try discriminate; reflexivity].
Qed.

Lemma user_responses_hide_password_witness :
  In post_login_wallet user_endpoints /\
  status (fst (handle (post_login_wallet (login_body sample_addr (JStr sample_sig)))
                 sample_world [])) = 200 /\
  (let r := fst (handle (post_login_wallet (login_body sample_addr (JStr sample_sig)))
                   sample_world []) in
   json_has_key "password" (rbody r) = false /\
   (status r = 200 \/ status r = 201 -> user_envelope_ok (rbody r) = true)).
Proof.
  split; [right; right; left; reflexivity|].
  split; [vm_compute; reflexivity|].
  apply user_responses_hide_password; right; right; left; reflexivity.
Defined.

(* ================================================================== *)
(** * Further properties of the handlers *)

(** ** Running a handler along all its paths *)

Lemma bind_inv {A B} (m : M A) (k : A -> M B) s o s'' :
  bind m k s = (o, s'') ->
  (exists e, m s = (Thrown e, s'') /\ o = Thrown e) \/
  (exists a s', m s = (Ok a, s') /\ k a s' = (o, s'')).
Proof.
  unfold bind. destruct (m s) as [[a|e] s']; intro H.
  - right; exists a, s'; split; [reflexivity|exact H].
  - left; exists e; injection H as <- <-; split; reflexivity.
Qed.

Lemma mongo_inv {A} (f : world -> A * world) w fl o w' fl' :
  mongo f (w, fl) = (o, (w', fl')) ->
  (w' = w /\ fl = true :: fl' /\ exists e, o = Thrown e) \/
  (exists a, f w = (a, w') /\ o = Ok a /\ fl' = tl fl).
Proof.
  unfold mongo. destruct fl as [|[] fl].
  - destruct (f w) as [a w0]; intro H; injection H as <- <- <-; right; exists a; auto.
  - intro H; injection H as <- <- <-; left; split; [reflexivity|split; [reflexivity|]].
    eexists; reflexivity.
  - destruct (f w) as [a w0]; intro H; injection H as <- <- <-; right; exists a; auto.
Qed.

Lemma connect_inv w fl o w' fl' :
  connectToDatabase (w, fl) = (o, (w', fl')) ->
  (connected w = true /\ w' = w /\ o = Ok tt /\ fl' = fl) \/
  (connected w = false /\ w' = w /\ fl = true :: fl' /\ o = Thrown MongoError) \/
  (connected w = false /\ hd false fl = false /\ w' = set_connected w /\ o = Ok tt /\
   fl' = tl fl).
Proof.
  unfold connectToDatabase, mongo. destruct (connected w) eqn:Hc.
  - intro H; injection H as <- <- <-; left; auto.
  - destruct fl as [|[] fl]; intro H; injection H as <- <- <-; right; [right|left|right]; auto.
Qed.

(** One store call [Hm] of a path: its effect on the world and the fault
    flags. *)
Ltac call_inv Hm :=
  unfold users_findOne, users_insertOne, users_findOneAndUpdate, pr_insertOne, pr_find,
    pr_findOne, upi_replaceOne_upsert, upi_findOne in Hm;
  first
    [ let Ho := fresh "Ho" in let Hf := fresh "Hfl" in let Hc := fresh "Hcn" in
      let Hh := fresh "Hhd" in
      apply connect_inv in Hm
        as [(Hc & -> & Ho & Hf) | [(Hc & -> & Hf & Ho) | (Hc & Hh & -> & Ho & Hf)]];
      try discriminate Ho; try discriminate Hf; simpl in Hf; subst
    | unfold new_Date in Hm; first [discriminate Hm | injection Hm as <- <- <-]
    | let e := fresh "e" in let a := fresh "a" in let Hf := fresh "Hf" in
      let He := fresh "He" in let Hfl := fresh "Hfl" in
      apply mongo_inv in Hm as [(-> & Hfl & e & He) | (a & Hf & He & Hfl)];
      [ try discriminate He; try discriminate Hfl
      | try discriminate He;
        try (injection He as <-);
        simpl in Hfl; subst;
        try (injection Hf as <- <-);
        try (match type of Hf with
             | match ?x with _ => _ end = _ =>
                 destruct x as [[? ?]|] eqn:?; injection Hf as <- <-
             end) ] ].

(** Split the runs in the context into their paths, down to the store
    calls, [ret] and [throw]. *)
Ltac explore_step :=
  match goal with
  | H : bind _ _ _ = _ |- _ =>
      let e := fresh "e" in let a := fresh "a" in let w := fresh "w" in
      let fl := fresh "fl" in let Hm := fresh "Hm" in let He := fresh "He" in
      apply bind_inv in H as [(e & Hm & He) | (a & [w fl] & Hm & H)];
      [ subst; try call_inv Hm | try call_inv Hm ]
  | H : (if ?c then _ else _) _ = _ |- _ => destruct c eqn:?
  | H : (match ?x with _ => _ end) _ = _ |- _ => destruct x eqn:?
  | H : ret _ _ = _ |- _ => unfold ret in H; first [discriminate H | injection H as <- <- <-]
  | H : throw _ _ = _ |- _ =>
      unfold throw in H; first [discriminate H | injection H as <- <- <-]
  | H : upi_replaceOne_upsert _ _ _ = _ |- _ => call_inv H
  end.

Ltac explore H := cbv zeta in H; repeat (cbv zeta in *; explore_step).

(** ** Read-only routes *)

(** Login by password or wallet and the three [GET] routes never change a
    collection, whatever the request and the store faults. *)
Theorem read_only_routes_preserve_collections (b : body) (p : jstr) (w : world)
    (fl : list bool) (m : M response) (Hm : In m (read_only_routes b p)) :
  collections (snd (handle m w fl)) = collections w.
Proof.
  unfold handle, collections.
  destruct (m (w, fl)) as [o [w' fl']] eqn:H.
  assert (users w' = users w /\ paymentRequests w' = paymentRequests w /\
          upiIndex w' = upiIndex w) as (E1 & E2 & E3).
  2: { destruct o; simpl; rewrite E1, E2, E3; reflexivity. }
  simpl in Hm.
  destruct Hm as [<-|[<-|[<-|[<-|[<-|[]]]]]];
    [ unfold post_login in H | unfold get_upi_by_contract in H
    | unfold get_payment_request_by_contract in H | unfold get_payment_requests in H
    | unfold post_login_wallet in H ];
    explore H; simpl; auto.
Qed.

(** ** What each route writes *)

(** The user routes never write the paymentRequests or upiIndex
    collections. *)
Theorem user_endpoints_frame (h : body -> M response) (b : body) (w : world)
    (fl : list bool) (Hh : In h user_endpoints) :
  paymentRequests (snd (handle (h b) w fl)) = paymentRequests w /\
  upiIndex (snd (handle (h b) w fl)) = upiIndex w.
Proof.
  unfold handle.
  destruct (h b (w, fl)) as [o [w' fl']] eqn:H.
  enough (paymentRequests w' = paymentRequests w /\ upiIndex w' = upiIndex w)
    by (destruct o; exact H0).
  simpl in Hh.
  destruct Hh as [<-|[<-|[<-|[<-|[<-|[]]]]]];
    [ unfold post_signup in H | unfold post_login in H | unfold post_login_wallet in H
    | unfold post_update_wallet, post_update_wallet_with, result_value in H | unfold post_register_wallet in H ];
    explore H; simpl; auto.
Qed.

(** [POST /api/payment-request] never writes the users collection, and it
    appends at most one document to paymentRequests: the [newPaymentRequest]
    of the body, with the body's numeric amount, the current date and the
    next fresh [_id]. *)
Theorem payment_request_frame (b : body) (w : world) (fl : list bool) :
  let w' := snd (handle (post_payment_request b) w fl) in
  users w' = users w /\
  (paymentRequests w' = paymentRequests w \/
   exists a, field b "amount" = Some (JNum a) /\
     paymentRequests w' = paymentRequests w ++ [new_payment_request b a (now w) (next_oid w)]).
Proof.
  cbv zeta. unfold handle.
  destruct (post_payment_request b (w, fl)) as [o [w' fl']] eqn:H.
  enough (users w' = users w /\
          (paymentRequests w' = paymentRequests w \/
           exists a, field b "amount" = Some (JNum a) /\
             paymentRequests w' = paymentRequests w ++
                                    [new_payment_request b a (now w) (next_oid w)]))
    by (destruct o; exact H0).
  unfold post_payment_request in H.
  explore H; simpl; rewrite ?users_upsert_replace, ?paymentRequests_upsert_replace; simpl;
    (split; [reflexivity|]);
    first [left; reflexivity | right; eexists; split; reflexivity].
Qed.

(** ** Uniqueness of usernames and wallet addresses *)

Lemma find_none_in {A} (p : A -> bool) l :
  find p l = None -> forall y, In y l -> p y = false.
Proof.
  induction l as [|z l IH]; simpl; intros H y Hy; [destruct Hy|].
  destruct (p z) eqn:Hz; [discriminate|].
  destruct Hy as [<-|Hy]; [exact Hz|]. apply IH; assumption.
Qed.






Lemma set_wallet_username a t x : username (set_wallet a t x) = username x.
Proof. reflexivity. Qed.






(** ** The connection to the database *)

Lemma connected_upsert_replace p doc w : connected (upsert_replace p doc w) = connected w.
Proof. unfold upsert_replace; destruct (update_first _ _ _) as [[? ?]|]; reflexivity. Qed.

(** A failed connection is not kept: the route answers 500 and leaves the
    world as it was, still disconnected, so that the next request connects
    again; a successful one stays for every later request. *)
Theorem routes_connection_memo (b : body) (p : jstr) (w : world) (fl : list bool)
    (m : M response) (Hm : In m (all_routes b p)) :
  connected (snd (handle m w fl)) = connected w || negb (hd false fl) /\
  (connected w = false -> hd false fl = true -> handle m w fl = (error500, w)).
Proof.
  split.
  - unfold handle.
    destruct (m (w, fl)) as [o [w' fl']] eqn:H.
    enough (connected w' = connected w || negb (hd false fl)) by (destruct o; exact H0).
    simpl in Hm.
    destruct Hm as [<-|[<-|[<-|[<-|[<-|[<-|[<-|[<-|[<-|[<-|[]]]]]]]]]]];
      [ unfold post_signup in H | unfold post_login in H | unfold post_payment_request in H
      | unfold get_upi_by_contract in H | unfold get_payment_request_by_contract in H
      | unfold get_payment_requests in H | unfold post_update_wallet, post_update_wallet_with, result_value in H
      | unfold post_login_wallet in H | unfold post_register_wallet in H
      | unfold post_update_wallet_with, result_value in H ];
      explore H; simpl; rewrite ?connected_upsert_replace; simpl;
      repeat match goal with H : connected _ = _ |- _ => rewrite H end;
      rewrite ?Hhd; reflexivity.
  - intros Hc Hf. destruct fl as [|[] fl]; try discriminate.
    simpl in Hm.
    destruct Hm as [<-|[<-|[<-|[<-|[<-|[<-|[<-|[<-|[<-|[<-|[]]]]]]]]]]];
      unfold handle, post_signup, post_login, post_payment_request, get_upi_by_contract,
        get_payment_request_by_contract, get_payment_requests, post_update_wallet, post_update_wallet_with, result_value,
        post_login_wallet, post_register_wallet, bind, connectToDatabase, mongo;
      rewrite Hc; reflexivity.
Qed.

(** ** Answers without store faults *)

Lemma digits_aux_small fuel n acc :
  Forall (fun c => (c < 58)%N) acc -> Forall (fun c => (c < 58)%N) (digits_aux fuel n acc).
Proof.
  revert n acc; induction fuel as [|f IH]; intros n acc H; simpl; [exact H|].
  assert (Hd : Forall (fun c => (c < 58)%N) ((48 + n mod 10)%N :: acc)).
  { constructor; [|exact H].
    assert (n mod 10 < 10)%N by (apply N.mod_lt; discriminate). lia. }
  destruct (n <? 10)%N; [exact Hd | apply IH; exact Hd].
Qed.

Lemma eth_regex_match_small l :
  Forall (fun c => (c < 58)%N) l -> eth_regex_match l = false.
Proof.
  intro H. destruct l as [|c1 [|c2 rest]]; try reflexivity.
  inversion H as [|? ? _ H']; subst. inversion H' as [|? ? Hc2 _]; subst.
  simpl. destruct (c2 =? 120)%N eqn:E; [apply N.eqb_eq in E; lia|].
  rewrite !andb_false_r; reflexivity.
Qed.

(** [String(v)] of a value that is not a string never matches the address
    pattern. *)
Lemma eth_regex_test_string (v : option jval) :
  eth_regex_test v = true -> exists s, v = Some (JStr s).
Proof.
  unfold eth_regex_test. intro H.
  destruct v as [[|[]|z|s]|]; try discriminate; [|eexists; reflexivity].
  exfalso. simpl in H. destruct (z <? 0).
  - change (u "-") with [45%N] in H. simpl app in H.
    destruct (digits (Z.to_N (- z))) as [|c2 rest]; discriminate H.
  - rewrite eth_regex_match_small in H; [discriminate|].
    apply digits_aux_small; constructor.
Qed.

(** Without store faults, signup, password login, payment-request creation
    and the three [GET] routes never answer 500, on any request body with
    scalar fields and any route parameter. *)
Theorem fault_free_routes_never_500 (b : body) (p : jstr) (w : world) (m : M response)
    (Hm : In m (routes_without_throw b p)) :
  status (fst (handle m w [])) <> 500.
Proof.
  unfold handle.
  destruct (m (w, [])) as [o [w' fl']] eqn:H.
  simpl in Hm.
  destruct Hm as [<-|[<-|[<-|[<-|[<-|[<-|[]]]]]]];
    [ unfold post_signup in H | unfold post_login in H | unfold post_payment_request in H
    | unfold get_upi_by_contract in H | unfold get_payment_request_by_contract in H
    | unfold get_payment_requests in H ];
    explore H; simpl; discriminate.
Qed.

(** Without store faults, on a request body with scalar fields, wallet
    login and wallet registration answer 500 only for a truthy signature
    that is not a string ([startsWith] throws). *)
Theorem wallet_routes_500_only_on_signature (b : body) (w : world) (m : M response)
    (Hm : In m [post_login_wallet b; post_register_wallet b]) :
  status (fst (handle m w [])) = 500 ->
  exists v, field b "signature" = Some v /\ truthy (Some v) = true /\ js_length (Some v) = None.
Proof.
  unfold handle.
  destruct (m (w, [])) as [o [w' fl']] eqn:H.
  simpl in Hm.
  destruct Hm as [<-|[<-|[]]];
    [ unfold post_login_wallet in H | unfold post_register_wallet in H ];
    explore H; simpl; intro H500; try discriminate.
  all: repeat match goal with Ho : _ || _ = false |- _ => apply orb_false_elim in Ho as [? ?] end.
  all: try (match goal with
            | Hr : negb (eth_regex_test ?v) = false |- _ =>
                destruct (eth_regex_test_string v) as [s Hs];
                [destruct (eth_regex_test v); [reflexivity|discriminate] | congruence]
            end).
  all: try (exfalso; simpl in *; discriminate).
  all: eexists; split; [reflexivity|]; simpl in *; split; [|reflexivity].
  all: match goal with |- ?t = true => destruct t; [reflexivity | simpl in *; discriminate] end.
Qed.

(** ** Password login *)

Lemma post_login_200 (b : body) (w : world) (fl : list bool) :
  status (fst (handle (post_login b) w fl)) = 200 ->
  exists x, find (fun x => jval_eqb (username x) (val (field b "username"))) (users w) = Some x /\
            password x = val (field b "password") /\ truthy (Some (password x)) = true /\
            fst (handle (post_login b) w fl) = login_ok x.
Proof.
  unfold handle.
  destruct (post_login b (w, fl)) as [o [w' fl']] eqn:H.
  unfold post_login in H.
  explore H; simpl; intro Hs; try discriminate.
  all: match goal with Hf : find _ _ = Some ?x |- _ => exists x; split; [reflexivity|] end.
  all: match goal with Hp : negb (jval_eqb (password ?x) ?v) = false |- _ =>
         assert (Hpw : password x = v)
           by (apply jval_eqb_eq; destruct (jval_eqb (password x) v); [reflexivity|discriminate])
       end.
  all: split; [exact Hpw|]; split; [|reflexivity].
  all: rewrite Hpw.
  all: repeat match goal with Ho : _ || _ = false |- _ => apply orb_false_elim in Ho as [? ?] end.
  all: destruct (field b "password") as [v|]; simpl in *; [|discriminate].
  all: match goal with |- ?t = true => destruct t; [reflexivity | simpl in *; discriminate] end.
Qed.

(** [POST /api/login] answers 200 only for the first user with the given
    username, when that user's stored password is truthy and strictly equal
    to the given one (whatever the store faults). *)
Theorem login_success_requires_password (b : body) (w : world) (fl : list bool) :
  status (fst (handle (post_login b) w fl)) = 200 ->
  exists x, find (fun x => jval_eqb (username x) (val (field b "username"))) (users w) = Some x /\
            password x = val (field b "password") /\ truthy (Some (password x)) = true /\
            fst (handle (post_login b) w fl) = login_ok x.
Proof. exact (post_login_200 b w fl). Qed.

(** The fault-free run of [POST /api/login] on a body with a truthy
    username and a non-empty string password. *)
Lemma post_login_run (uname : jval) (pwd : jstr) (w : world) :
  truthy (Some uname) = true -> pwd <> [] ->
  fst (handle (post_login (signup_body uname pwd)) w []) =
  match find (fun x => jval_eqb (username x) uname) (users w) with
  | None => err 401 (u "Invalid username or password")
  | Some x => if jval_eqb (password x) (JStr pwd) then login_ok x
              else err 401 (u "Invalid username or password")
  end.
Proof.
  intros Hu Hp.
  assert (Hpt : negb (Nat.eqb (List.length pwd) 0) = true) by (destruct pwd; [congruence|reflexivity]).
  unfold handle, post_login, bind, ret, connectToDatabase, mongo, users_findOne, signup_body, field.
  destruct uname as [|bu|zu|su]; simpl in Hu; try discriminate; [subst bu| |];
  destruct (connected w); simpl; rewrite ?Hu; simpl; rewrite Hpt; simpl;
    destruct (find _ (users w)) as [x|]; try reflexivity;
    destruct (jval_eqb (password x) (JStr pwd)); reflexivity.
Qed.

Lemma jval_eqb_neq (a b : jval) : a <> b -> jval_eqb a b = false.
Proof.
  intro H. destruct (jval_eqb a b) eqn:E; [apply jval_eqb_eq in E; contradiction|reflexivity].
Qed.

(** After a fault-free signup with a fresh truthy username and a password of
    at least 6 characters, a fault-free login with the same username and
    password answers 200 with the new user, and a login with any other
    non-empty password answers 401. *)
Theorem signup_then_login (uname : jval) (pwd pwd' : jstr) (w : world)
    (Hu : truthy (Some uname) = true) (Hp : (6 <= List.length pwd)%nat)
    (Hfresh : find (fun x => jval_eqb (username x) uname) (users w) = None)
    (Hne : pwd' <> pwd) (Hne' : pwd' <> []) :
  let w1 := snd (handle (post_signup (signup_body uname pwd)) w []) in
  fst (handle (post_login (signup_body uname pwd)) w1 []) =
    login_ok (signup_user uname pwd (next_oid w) (now w)) /\
  fst (handle (post_login (signup_body uname pwd')) w1 []) =
    err 401 (u "Invalid username or password").
Proof.
  pose proof (post_signup_run uname pwd w Hu Hp) as H1.
  destruct (handle (post_signup (signup_body uname pwd)) w []) as [r1 w1].
  rewrite Hfresh in H1. destruct H1 as [_ Hw1]. cbv zeta; simpl snd.
  assert (Hpne : pwd <> []) by (intros ->; simpl in Hp; lia).
  rewrite (post_login_run uname pwd w1 Hu Hpne), (post_login_run uname pwd' w1 Hu Hne').
  rewrite Hw1, find_app_last; [| exact Hfresh | apply jval_eqb_refl].
  unfold signup_user at 2 4; simpl password.
  rewrite jval_eqb_refl, jval_eqb_neq by congruence.
  split; reflexivity.
Qed.

(** ** Validation edges *)

(** On a request body with scalar fields and a truthy username and
    password, fault-free [POST /api/signup] rejects the password for its
    length exactly when it is a string shorter than 6: a truthy number or
    [true] has no [length] and passes the check. *)
Theorem signup_length_check_strings_only (b : body) (w : world)
    (Hu : truthy (field b "username") = true) (Hp : truthy (field b "password") = true) :
  fst (handle (post_signup b) w []) = err 400 (u "Password must be at least 6 characters long")
  <-> exists s, field b "password" = Some (JStr s) /\ (List.length s < 6)%nat.
Proof.
  split.
  - unfold handle.
    destruct (post_signup b (w, [])) as [o [w' fl']] eqn:H.
    unfold post_signup in H.
    explore H; simpl; intro Hr; try discriminate.
    all: try (rewrite Hu, Hp in *; discriminate).
    all: match goal with Hl : length_lt ?v 6 = true |- _ =>
           unfold length_lt, js_length in Hl;
           destruct v as [[| | |s]|]; try discriminate;
           exists s; split; [reflexivity | apply Nat.ltb_lt; exact Hl]
         end.
  - intros (s & Hs & Hl).
    unfold handle, post_signup, bind, ret, connectToDatabase, mongo.
    rewrite Hu, Hp. unfold length_lt, js_length; rewrite Hs.
    apply Nat.ltb_lt in Hl. destruct (connected w); simpl; rewrite Hl; reflexivity.
Qed.

(** Fault-free [POST /api/payment-request] answers 201 when the body has a
    truthy [upiId] and a positive number [amount]; otherwise it answers 400
    and writes nothing. *)
Theorem payment_request_validation (b : body) (w : world) :
  (valid_payment_body b -> status (fst (handle (post_payment_request b) w [])) = 201) /\
  (~ valid_payment_body b ->
     status (fst (handle (post_payment_request b) w [])) = 400 /\
     collections (snd (handle (post_payment_request b) w [])) = collections w).
Proof.
  split.
  - intros (Hupi & a & Ha & Hpos).
    pose proof (post_payment_request_no_fault b a w Hupi Ha Hpos) as H.
    destruct (handle (post_payment_request b) w []) as [r w']. apply H.
  - intro Hv. unfold handle, collections.
    destruct (post_payment_request b (w, [])) as [o [w' fl']] eqn:H.
    unfold post_payment_request in H.
    explore H; simpl; try (split; reflexivity).
    all: exfalso; apply Hv.
    all: repeat match goal with Ho : _ || _ = false |- _ => apply orb_false_elim in Ho as [? ?] end.
    all: split; [destruct (truthy (field b "upiId")); [reflexivity|discriminate]|].
    all: eexists; split; [eassumption|]; apply Z.leb_gt; assumption.
Qed.

(** ** Payment requests across routes *)

(** A 201 from [POST /api/payment-request] (under any store faults) means
    its document was appended to paymentRequests. *)
Lemma post_payment_request_created (b : body) (w : world) (fl : list bool) :
  status (fst (handle (post_payment_request b) w fl)) = 201 ->
  exists a t id,
    paymentRequests (snd (handle (post_payment_request b) w fl)) =
      paymentRequests w ++ [new_payment_request b a t id].
Proof.
  unfold handle.
  destruct (post_payment_request b (w, fl)) as [o [w' fl']] eqn:H.
  unfold post_payment_request in H.
  explore H; simpl; intro Hs; try discriminate;
    rewrite ?paymentRequests_upsert_replace; simpl; eauto.
Qed.

Lemma get_payment_requests_run (w : world) :
  fst (handle get_payment_requests w []) =
  mkResponse 200 (JObj [
    ("message"%string, JV (JStr (u "Payment requests retrieved successfully")));
    ("paymentRequests"%string,
     JArr (map format_listed (sort_createdAt_desc (filter is_pending (paymentRequests w)))))]).
Proof.
  unfold handle, get_payment_requests, bind, ret, connectToDatabase, mongo, pr_find.
  destruct (connected w); reflexivity.
Qed.

(** A payment request created with 201 (under any store faults) is listed
    by a following fault-free [GET /api/payment-requests]: it is stored with
    status 'pending'. *)
Theorem created_payment_request_is_listed (b : body) (w : world) (fl : list bool)
    (H201 : status (fst (handle (post_payment_request b) w fl)) = 201) :
  exists a t id items,
    paymentRequests (snd (handle (post_payment_request b) w fl)) =
      paymentRequests w ++ [new_payment_request b a t id] /\
    fst (handle get_payment_requests (snd (handle (post_payment_request b) w fl)) []) =
      mkResponse 200 (JObj [
        ("message"%string, JV (JStr (u "Payment requests retrieved successfully")));
        ("paymentRequests"%string, JArr items)]) /\
    In (format_listed (new_payment_request b a t id)) items.
Proof.
  destruct (post_payment_request_created b w fl H201) as (a & t & id & Hp).
  exists a, t, id.
  eexists; split; [exact Hp|]; split; [apply get_payment_requests_run|].
  apply in_map. apply (Permutation_in _ (Permutation_sym (sort_createdAt_desc_perm _))).
  rewrite Hp. apply filter_In; split.
  - apply in_or_app; right; left; reflexivity.
  - reflexivity.
Qed.

(** Every route at most appends to paymentRequests. *)
Lemma routes_append_payment_requests (b : body) (p : jstr) (w : world) (fl : list bool)
    (m : M response) (Hm : In m (all_routes b p)) :
  exists ext, paymentRequests (snd (handle m w fl)) = paymentRequests w ++ ext.
Proof.
  unfold handle.
  destruct (m (w, fl)) as [o [w' fl']] eqn:H.
  enough (exists ext, paymentRequests w' = paymentRequests w ++ ext)
    by (destruct o; exact H0).
  simpl in Hm.
  destruct Hm as [<-|[<-|[<-|[<-|[<-|[<-|[<-|[<-|[<-|[<-|[]]]]]]]]]]];
    [ unfold post_signup in H | unfold post_login in H | unfold post_payment_request in H
    | unfold get_upi_by_contract in H | unfold get_payment_request_by_contract in H
    | unfold get_payment_requests in H | unfold post_update_wallet, post_update_wallet_with, result_value in H
    | unfold post_login_wallet in H | unfold post_register_wallet in H
    | unfold post_update_wallet_with, result_value in H ];
    explore H; simpl; rewrite ?paymentRequests_upsert_replace; simpl;
    first [exists []; rewrite app_nil_r; reflexivity | eexists; reflexivity].
Qed.

Lemma find_app_some {A} (f : A -> bool) l ext x :
  find f l = Some x -> find f (l ++ ext) = Some x.
Proof.
  induction l as [|y l IH]; simpl; [discriminate|].
  destruct (f y); auto.
Qed.

Lemma get_payment_request_by_contract_extend (c : jstr) (w w' : world) ext q :
  paymentRequests w' = paymentRequests w ++ ext ->
  find (fun p => jval_eqb (pr_contractRequestId p) (JStr c)) (paymentRequests w) = Some q ->
  fst (handle (get_payment_request_by_contract c) w' []) =
  fst (handle (get_payment_request_by_contract c) w []).
Proof.
  intros He Hf.
  assert (Hf' : find (fun p => jval_eqb (pr_contractRequestId p) (JStr c)) (paymentRequests w')
                = Some q) by (rewrite He; apply find_app_some; exact Hf).
  unfold handle, get_payment_request_by_contract, bind, ret, connectToDatabase, pr_findOne,
    mongo, set_connected.
  destruct (connected w), (connected w'); simpl;
    destruct (Nat.eqb (List.length c) 0); try reflexivity;
    cbn [paymentRequests]; rewrite Hf', Hf; reflexivity.
Qed.

(** Looking a payment request up by contract id gives the earliest one
    stored with that id: once such a request is stored, no route, whatever
    its request and store faults, changes the answer of a fault-free
    [GET /api/payment-request/contract/:contractRequestId] for that id. *)
Theorem contract_lookup_keeps_first (b : body) (p : jstr) (w : world) (fl : list bool)
    (m : M response) (c : jstr) (q : payment_request)
    (Hm : In m (all_routes b p))
    (Hq : In q (paymentRequests w)) (Hc : pr_contractRequestId q = JStr c) :
  fst (handle (get_payment_request_by_contract c) (snd (handle m w fl)) []) =
  fst (handle (get_payment_request_by_contract c) w []).
Proof.
  destruct (routes_append_payment_requests b p w fl m Hm) as [ext He].
  destruct (find (fun p => jval_eqb (pr_contractRequestId p) (JStr c)) (paymentRequests w))
    as [q'|] eqn:Hf.
  - exact (get_payment_request_by_contract_extend c w _ ext q' He Hf).
  - exfalso. apply find_none_in with (y := q) in Hf; [|exact Hq].
    rewrite Hc, jval_eqb_refl in Hf. discriminate.
Qed.

Lemma find_app_false {A} (f : A -> bool) l d :
  f d = false -> find f (l ++ [d]) = find f l.
Proof.
  intro Hd. induction l as [|y l IH]; simpl; [rewrite Hd; reflexivity|].
  destruct (f y); [reflexivity | exact IH].
Qed.

Lemma post_payment_request_prs (b : body) (w : world) (fl : list bool) :
  paymentRequests (snd (handle (post_payment_request b) w fl)) = paymentRequests w \/
  exists a t id, paymentRequests (snd (handle (post_payment_request b) w fl)) =
                 paymentRequests w ++ [new_payment_request b a t id].
Proof.
  unfold handle.
  destruct (post_payment_request b (w, fl)) as [o [w' fl']] eqn:H.
  enough (paymentRequests w' = paymentRequests w \/
          exists a t id, paymentRequests w' = paymentRequests w ++ [new_payment_request b a t id])
    by (destruct o; exact H0).
  unfold post_payment_request in H.
  explore H; simpl; rewrite ?paymentRequests_upsert_replace; simpl; eauto 6.
Qed.

Lemma get_payment_request_by_contract_same_find (c : jstr) (w w' : world) :
  find (fun p => jval_eqb (pr_contractRequestId p) (JStr c)) (paymentRequests w') =
  find (fun p => jval_eqb (pr_contractRequestId p) (JStr c)) (paymentRequests w) ->
  fst (handle (get_payment_request_by_contract c) w' []) =
  fst (handle (get_payment_request_by_contract c) w []).
Proof.
  intro Hf.
  unfold handle, get_payment_request_by_contract, bind, ret, connectToDatabase, pr_findOne,
    mongo, set_connected.
  destruct (connected w), (connected w'); simpl;
    destruct (Nat.eqb (List.length c) 0); try reflexivity;
    cbn [paymentRequests]; rewrite Hf;
    destruct (find _ (paymentRequests w)); reflexivity.
Qed.

Lemma get_upi_by_contract_empty (w : world) :
  fst (handle (get_upi_by_contract []) w []) = err 400 (u "Contract request ID is required").
Proof.
  unfold handle, get_upi_by_contract, bind, ret, connectToDatabase, mongo.
  destruct (connected w); reflexivity.
Qed.

(** A payment request whose contractRequestId is a scalar but not a string
    (a number or a boolean, say) is stored when the route answers 201, but
    neither [GET] route by contract id can ever find it or its UPI index
    entry: the route parameter is always a string, and the answers of both
    routes for every parameter stay what they were before the request,
    whatever the store faults. *)
Theorem non_string_contract_id_unreachable (b : body) (w : world) (fl : list bool) (c : jstr)
    (Hns : forall s, field b "contractRequestId" <> Some (JStr s)) :
  let w' := snd (handle (post_payment_request b) w fl) in
  (status (fst (handle (post_payment_request b) w fl)) = 201 ->
     exists a t id, paymentRequests w' = paymentRequests w ++ [new_payment_request b a t id]) /\
  fst (handle (get_upi_by_contract c) w' []) = fst (handle (get_upi_by_contract c) w []) /\
  fst (handle (get_payment_request_by_contract c) w' []) =
  fst (handle (get_payment_request_by_contract c) w []).
Proof.
  cbv zeta.
  assert (Hk : val (field b "contractRequestId") <> JStr c).
  { destruct (field b "contractRequestId") as [v|]; simpl; [|discriminate].
    intro E; subst v; apply (Hns c); reflexivity. }
  split; [apply post_payment_request_created|].
  split.
  - destruct c as [|c0 c'].
    + rewrite !get_upi_by_contract_empty; reflexivity.
    + apply get_upi_by_contract_same_filter; [discriminate|].
      pose proof (post_payment_request_upiIndex b w fl) as Hstep.
      destruct (handle (post_payment_request b) w fl) as [r w1]; simpl.
      destruct Hstep as [(_ & _ & n & t & Hw1) | [(_ & _ & Hw1) | (_ & Hw1)]];
        rewrite Hw1; [|reflexivity|reflexivity].
      apply upsert_list_other; [reflexivity|].
      intro E; apply Hk; symmetry; exact E.
  - apply get_payment_request_by_contract_same_find.
    destruct (post_payment_request_prs b w fl) as [E | (a & t & id & E)]; rewrite E;
      [reflexivity|].
    apply find_app_false. unfold new_payment_request; simpl.
    apply jval_eqb_neq. unfold or_default.
    destruct (field b "contractRequestId") as [v|]; [|discriminate].
    destruct (truthy (Some v)); [|discriminate].
    intro Ev; subst v. apply (Hns c); reflexivity.
Qed.

(** ** Repeating a wallet update *)

Lemma update_wallet_ok_set_wallet (a : jstr) (t t' : Z) (x : user) :
  update_wallet_ok (set_wallet a t' (set_wallet a t x)) = update_wallet_ok (set_wallet a t x).
Proof. reflexivity. Qed.

(** Repeating a fault-free [POST /api/update-wallet] that answered 200
    (with a well-formed address and a non-empty username) answers 200 again
    with the same user: the address now held by that user does not count as
    taken by another one. *)
Theorem update_wallet_repeatable (addr uname : jstr) (w : world)
    (Hre : eth_regex_match addr = true) (Hu : uname <> [])
    (H200 : status (fst (handle (post_update_wallet (update_body addr uname)) w [])) = 200) :
  fst (handle (post_update_wallet (update_body addr uname))
         (snd (handle (post_update_wallet (update_body addr uname)) w [])) []) =
  fst (handle (post_update_wallet (update_body addr uname)) w []).
Proof.
  pose proof (post_update_wallet_run addr uname w Hre Hu) as R1.
  destruct (handle (post_update_wallet (update_body addr uname)) w []) as [r1 w1].
  simpl in H200 |- *.
  destruct (find (fun x => holds_address addr x && negb (has_username uname x)) (users w))
    as [ew|] eqn:Hew.
  { destruct R1 as [Hs _]; rewrite Hs in H200; discriminate. }
  destruct (find (has_username uname) (users w)) as [x|] eqn:Hx.
  2: { destruct R1 as [-> _]; discriminate. }
  destruct R1 as [-> (l' & Hl' & Hw1)].
  apply update_first_some in Hl' as (pre & x0 & post & Hl & Hpre & Hx0 & _ & Hl'').
  assert (x0 = x) as ->.
  { rewrite find_filter, Hl, filter_app, Hpre in Hx; simpl in Hx; rewrite Hx0 in Hx.
    injection Hx as ->; reflexivity. }
  pose proof (post_update_wallet_run addr uname w1 Hre Hu) as R2.
  destruct (handle (post_update_wallet (update_body addr uname)) w1 []) as [r2 w2].
  simpl.
  rewrite Hw1, Hl'' in R2.
  assert (Hq : find (fun y => holds_address addr y && negb (has_username uname y))
                    (pre ++ set_wallet (toLowerCase addr) (now w) x :: post) = None).
  { apply find_none_forall. intros y Hy.
    apply in_app_or in Hy as [Hy | [<- | Hy]].
    - apply (find_none_in _ _ Hew); rewrite Hl; apply in_or_app; left; exact Hy.
    - unfold has_username; rewrite set_wallet_username; unfold has_username in Hx0;
        rewrite Hx0, andb_false_r; reflexivity.
    - apply (find_none_in _ _ Hew); rewrite Hl; apply in_or_app; right; right; exact Hy. }
  rewrite Hq in R2.
  assert (Hh : find (has_username uname) (pre ++ set_wallet (toLowerCase addr) (now w) x :: post)
               = Some (set_wallet (toLowerCase addr) (now w) x)).
  { rewrite find_filter, filter_app, Hpre; simpl.
    unfold has_username at 1; rewrite set_wallet_username; unfold has_username in Hx0;
      rewrite Hx0; reflexivity. }
  rewrite Hh in R2. destruct R2 as [-> _].
  apply update_wallet_ok_set_wallet.
Qed.

(** ** Wallet users and password login *)

(** A 201 from [POST /api/register-wallet] (under any store faults) means no
    user had the username before, and one user with an empty password was
    appended. *)
Lemma post_register_wallet_created (b : body) (w : world) (fl : list bool) :
  status (fst (handle (post_register_wallet b) w fl)) = 201 ->
  find (fun x => jval_eqb (username x) (val (field b "username"))) (users w) = None /\
  exists id a t, users (snd (handle (post_register_wallet b) w fl)) =
    users w ++ [mkUser id (val (field b "username")) (JStr []) (JStr []) (Some (JStr a)) t None].
Proof.
  unfold handle.
  destruct (post_register_wallet b (w, fl)) as [o [w' fl']] eqn:H.
  unfold post_register_wallet in H.
  explore H; simpl; intro Hs; try discriminate.
  all: split; [reflexivity | do 3 eexists; reflexivity].
Qed.

(** A user created by [POST /api/register-wallet] can never log in by
    [POST /api/login] under the registered username: its stored password is
    the empty string, which the login rejects whatever password is sent and
    whatever the store faults of either request. *)
Theorem wallet_user_no_password_login (b b' : body) (w : world) (fl fl' : list bool)
    (H201 : status (fst (handle (post_register_wallet b) w fl)) = 201)
    (Hu : val (field b' "username") = val (field b "username")) :
  status (fst (handle (post_login b') (snd (handle (post_register_wallet b) w fl)) fl')) <> 200.
Proof.
  destruct (post_register_wallet_created b w fl H201) as [Hnone (id & a & t & Hw)].
  intro H200.
  destruct (post_login_200 b' _ fl' H200) as (x & Hf & _ & Ht & _).
  rewrite Hw, Hu, (find_app_last _ _ _ Hnone) in Hf by (simpl; apply jval_eqb_refl).
  injection Hf as <-. discriminate Ht.
Qed.

(** ** Instances of the properties above *)

Lemma read_only_routes_preserve_collections_witness :
  In (post_login (signup_body (JStr (u "alice")) (u "secret1")))
     (read_only_routes (signup_body (JStr (u "alice")) (u "secret1")) (u "c1")) /\
  collections (snd (handle (post_login (signup_body (JStr (u "alice")) (u "secret1")))
                      password_world [])) = collections password_world.
Proof.
  split; [left; reflexivity|].
  apply (read_only_routes_preserve_collections (signup_body (JStr (u "alice")) (u "secret1"))
           (u "c1")); left; reflexivity.
Defined.

Lemma user_endpoints_frame_witness :
  In post_signup user_endpoints /\
  paymentRequests (snd (handle (post_signup (signup_body (JStr (u "carol")) (u "secret2")))
                          pr_world [])) = paymentRequests pr_world /\
  upiIndex (snd (handle (post_signup (signup_body (JStr (u "carol")) (u "secret2")))
                   pr_world [])) = upiIndex pr_world.
Proof.
  split; [left; reflexivity|].
  apply (user_endpoints_frame post_signup); left; reflexivity.
Defined.



Lemma routes_connection_memo_witness :
  In get_payment_requests (all_routes [] (u "c1")) /\
  connected (snd (handle get_payment_requests empty_world [true])) =
    connected empty_world || negb (hd false [true]) /\
  (connected empty_world = false -> hd false [true] = true ->
   handle get_payment_requests empty_world [true] = (error500, empty_world)).
Proof.
  split; [right; right; right; right; right; left; reflexivity|].
  apply (routes_connection_memo [] (u "c1")).
  right; right; right; right; right; left; reflexivity.
Defined.

Lemma fault_free_routes_never_500_witness :
  In (post_payment_request numeric_cid_body) (routes_without_throw numeric_cid_body []) /\
  status (fst (handle (post_payment_request numeric_cid_body) empty_world [])) <> 500.
Proof.
  split; [right; right; left; reflexivity|].
  apply (fault_free_routes_never_500 numeric_cid_body []); right; right; left; reflexivity.
Defined.

Lemma wallet_routes_500_only_on_signature_witness :
  status (fst (handle (post_login_wallet (login_body sample_addr (JNum 5))) sample_world [])) = 500
  /\ exists v, field (login_body sample_addr (JNum 5)) "signature" = Some v /\
               truthy (Some v) = true /\ js_length (Some v) = None.
Proof.
  assert (H500 : status (fst (handle (post_login_wallet (login_body sample_addr (JNum 5)))
                                sample_world [])) = 500) by (vm_compute; reflexivity).
  split; [exact H500|].
  apply (wallet_routes_500_only_on_signature (login_body sample_addr (JNum 5)) sample_world
           (post_login_wallet (login_body sample_addr (JNum 5))));
    [left; reflexivity | exact H500].
Defined.

Lemma login_success_requires_password_witness :
  status (fst (handle (post_login (signup_body (JStr (u "alice")) (u "secret1")))
                 password_world [])) = 200 /\
  exists x, find (fun x => jval_eqb (username x)
                   (val (field (signup_body (JStr (u "alice")) (u "secret1")) "username")))
                 (users password_world) = Some x /\
            password x = val (field (signup_body (JStr (u "alice")) (u "secret1")) "password") /\
            truthy (Some (password x)) = true /\
            fst (handle (post_login (signup_body (JStr (u "alice")) (u "secret1")))
                   password_world []) = login_ok x.
Proof.
  assert (H200 : status (fst (handle (post_login (signup_body (JStr (u "alice")) (u "secret1")))
                                password_world [])) = 200) by (vm_compute; reflexivity).
  split; [exact H200|].
  exact (login_success_requires_password _ password_world [] H200).
Defined.

Lemma signup_then_login_witness :
  let w1 := snd (handle (post_signup (signup_body (JStr (u "carol")) (u "secret2")))
                   sample_world []) in
  fst (handle (post_login (signup_body (JStr (u "carol")) (u "secret2"))) w1 []) =
    login_ok (signup_user (JStr (u "carol")) (u "secret2") (next_oid sample_world)
                          (now sample_world)) /\
  fst (handle (post_login (signup_body (JStr (u "carol")) (u "wrong!!"))) w1 []) =
    err 401 (u "Invalid username or password").
Proof.
  apply signup_then_login; [reflexivity | simpl; lia | reflexivity | discriminate | discriminate].
Defined.

Lemma signup_length_check_strings_only_witness :
  fst (handle (post_signup (signup_body (JStr (u "alice")) (u "abc"))) empty_world []) =
    err 400 (u "Password must be at least 6 characters long")
  <-> exists s, field (signup_body (JStr (u "alice")) (u "abc")) "password" = Some (JStr s) /\
               (List.length s < 6)%nat.
Proof.
  apply signup_length_check_strings_only; reflexivity.
Defined.

Lemma created_payment_request_is_listed_witness :
  status (fst (handle (post_payment_request (pr_body "shop@upi" 100 "c2")) pr_world [])) = 201 /\
  exists a t id items,
    paymentRequests (snd (handle (post_payment_request (pr_body "shop@upi" 100 "c2")) pr_world [])) =
      paymentRequests pr_world ++ [new_payment_request (pr_body "shop@upi" 100 "c2") a t id] /\
    fst (handle get_payment_requests
           (snd (handle (post_payment_request (pr_body "shop@upi" 100 "c2")) pr_world [])) []) =
      mkResponse 200 (JObj [
        ("message"%string, JV (JStr (u "Payment requests retrieved successfully")));
        ("paymentRequests"%string, JArr items)]) /\
    In (format_listed (new_payment_request (pr_body "shop@upi" 100 "c2") a t id)) items.
Proof.
  assert (H201 : status (fst (handle (post_payment_request (pr_body "shop@upi" 100 "c2"))
                                pr_world [])) = 201) by (vm_compute; reflexivity).
  split; [exact H201|].
  exact (created_payment_request_is_listed _ pr_world [] H201).
Defined.

Lemma contract_lookup_keeps_first_witness :
  In (post_payment_request (pr_body "other@upi" 900 "c1"))
     (all_routes (pr_body "other@upi" 900 "c1") []) /\
  In stored_pr (paymentRequests pr_world) /\ pr_contractRequestId stored_pr = JStr (u "c1") /\
  fst (handle (get_payment_request_by_contract (u "c1"))
         (snd (handle (post_payment_request (pr_body "other@upi" 900 "c1")) pr_world [])) []) =
  fst (handle (get_payment_request_by_contract (u "c1")) pr_world []).
Proof.
  assert (Hm : In (post_payment_request (pr_body "other@upi" 900 "c1"))
                  (all_routes (pr_body "other@upi" 900 "c1") []))
    by (right; right; left; reflexivity).
  assert (Hq : In stored_pr (paymentRequests pr_world)) by (left; reflexivity).
  assert (Hc : pr_contractRequestId stored_pr = JStr (u "c1")) by reflexivity.
  split; [exact Hm|]; split; [exact Hq|]; split; [exact Hc|].
  exact (contract_lookup_keeps_first _ _ pr_world [] _ (u "c1") stored_pr Hm Hq Hc).
Defined.

Lemma non_string_contract_id_unreachable_witness :
  (forall s, field numeric_cid_body "contractRequestId" <> Some (JStr s)) /\
  let w' := snd (handle (post_payment_request numeric_cid_body) pr_world []) in
  status (fst (handle (post_payment_request numeric_cid_body) pr_world [])) = 201 /\
  (exists a t id, paymentRequests w' =
     paymentRequests pr_world ++ [new_payment_request numeric_cid_body a t id]) /\
  fst (handle (get_upi_by_contract (u "c1")) w' []) =
    fst (handle (get_upi_by_contract (u "c1")) pr_world []) /\
  fst (handle (get_payment_request_by_contract (u "c1")) w' []) =
    fst (handle (get_payment_request_by_contract (u "c1")) pr_world []).
Proof.
  assert (Hns : forall s, field numeric_cid_body "contractRequestId" <> Some (JStr s))
    by (intro s; simpl; discriminate).
  split; [exact Hns|].
  assert (H201 : status (fst (handle (post_payment_request numeric_cid_body) pr_world [])) = 201)
    by (vm_compute; reflexivity).
  destruct (non_string_contract_id_unreachable _ pr_world [] (u "c1") Hns) as (Hst & Hu & Hp).
  split; [exact H201|]. split; [exact (Hst H201)|]. split; [exact Hu | exact Hp].
Defined.

Lemma update_wallet_repeatable_witness :
  status (fst (handle (post_update_wallet (update_body sample_addr_variant (u "bob")))
                 sample_world [])) = 200 /\
  fst (handle (post_update_wallet (update_body sample_addr_variant (u "bob")))
         (snd (handle (post_update_wallet (update_body sample_addr_variant (u "bob")))
                 sample_world [])) []) =
  fst (handle (post_update_wallet (update_body sample_addr_variant (u "bob"))) sample_world []).
Proof.
  assert (H200 : status (fst (handle (post_update_wallet (update_body sample_addr_variant (u "bob")))
                                sample_world [])) = 200) by (vm_compute; reflexivity).
  split; [exact H200|].
  apply update_wallet_repeatable; [vm_compute; reflexivity | discriminate | exact H200].
Defined.

Lemma wallet_user_no_password_login_witness :
  status (fst (handle (post_register_wallet (register_body sample_addr sample_sig (JStr (u "dave"))))
                 empty_world [])) = 201 /\
  status (fst (handle (post_login (signup_body (JStr (u "dave")) (u "anything")))
                 (snd (handle (post_register_wallet
                                 (register_body sample_addr sample_sig (JStr (u "dave"))))
                         empty_world [])) [])) <> 200.
Proof.
  assert (H201 : status (fst (handle (post_register_wallet
                                        (register_body sample_addr sample_sig (JStr (u "dave"))))
                                empty_world [])) = 201) by (vm_compute; reflexivity).
  split; [exact H201|].
  apply (wallet_user_no_password_login _ _ empty_world [] [] H201); reflexivity.
Defined.

Lemma payment_request_validation_witness :
  valid_payment_body (pr_body "shop@upi" 100 "c2") /\
  status (fst (handle (post_payment_request (pr_body "shop@upi" 100 "c2")) empty_world [])) = 201.
Proof.
  assert (Hv : valid_payment_body (pr_body "shop@upi" 100 "c2"))
    by (split; [reflexivity | exists 100; split; [reflexivity | lia]]).
  split; [exact Hv|].
  exact (proj1 (payment_request_validation (pr_body "shop@upi" 100 "c2") empty_world) Hv).
Defined.
